(** * simple-whiteboard: the drawing state machine and the rect tool

    A shallow embedding of [src/whiteboard.ts] (the self-contained viewer,
    module [Viewer]) and of [src/tools/rect.ts] (the rect tool plug-in,
    module [ToolRect]).

    JavaScript numbers are IEEE 754 binary64 values: they are modelled by
    Rocq's primitive floats, whose operations round the same way.  Objects
    that the program mutates through a reference (the draft, which
    [handleDrawingEnd] pushes onto [items] without copying) live in an
    explicit object store, so that aliasing between the draft and the
    committed items is visible in the model. *)

From Stdlib Require Import Floats.PrimFloat Floats.FloatOps Floats.SpecFloat.
From stdpp Require Import base option list strings pretty.

(** ** Values shared by both source files *)

(** [{ x: number; y: number }] *)
Record Point := mkPoint { px : float; py : float }.

(** roughjs' [Options], as far as the sources read or write them; every
    field is optional, [{}] is [noOptions]. *)
Module Rough.
Record Options := mkOptions {
  stroke : option string;
  strokeWidth : option float;
  fill : option string
}.
Definition noOptions : Options := mkOptions None None None.
End Rough.

Abbreviation RoughCanvasOptions := Rough.Options.

(** What the render loop sends to the drawing backend (the rough canvas and
    the 2D context), in order. *)
Inductive DrawOp :=
| ClearRect (x y w h : float)
| Rectangle (x y w h : float) (options : RoughCanvasOptions)
| Circle (x y diameter : float) (options : RoughCanvasOptions)
| Line (x1 y1 x2 y2 : float) (options : RoughCanvasOptions)
| FillPath (pathData : string) (fillStyle : string).

(** ToBoolean on a number: [+0], [-0] and [NaN] are falsy. *)
Definition truthy (v : float) : bool :=
  negb (PrimFloat.eqb v 0%float) && negb (PrimFloat.is_nan v).

(** [v || d] on an optional number ([undefined] is falsy too). *)
Definition number_or (v : option float) (d : float) : float :=
  match v with
  | Some w => if truthy w then w else d
  | None => d
  end.

(** [v || d] on an optional string (the empty string is falsy). *)
Definition string_or (v : option string) (d : string) : string :=
  match v with
  | Some EmptyString => d
  | Some w => w
  | None => d
  end.

(** ** [src/whiteboard.ts] *)

Module Viewer.

(** [options: { color?: string }] of a pen stroke. *)
Record PenOptions := mkPenOptions { color : option string }.

(** The discriminated union [WhiteboardItem]; the constructor is the [kind]
    field. *)
Inductive WhiteboardItem :=
| WhiteboardRect (x y width height : float) (options : RoughCanvasOptions)
| WhiteboardCircle (x y diameter : float) (options : RoughCanvasOptions)
| WhiteboardLine (x1 y1 x2 y2 : float) (options : RoughCanvasOptions)
| WhiteboardPen (path : list Point) (options : PenOptions)
| WhiteboardMove (x y : float).

Definition kind (item : WhiteboardItem) : string :=
  match item with
  | WhiteboardRect _ _ _ _ _ => "rect"
  | WhiteboardCircle _ _ _ _ => "circle"
  | WhiteboardLine _ _ _ _ _ => "line"
  | WhiteboardPen _ _ => "pen"
  | WhiteboardMove _ _ => "move"
  end.

(** A computation that may throw. *)
Inductive completion (A : Type) :=
| Ok (a : A)
| Throw (error : string).
Arguments Ok {A} a.
Arguments Throw {A} error.

(** What the file takes from outside: [Number.prototype.toFixed] of the
    runtime and [getStroke] of perfect-freehand (with its four numeric
    options [size], [smoothing], [thinning] and [streamline]). *)
Class Externals := {
  toFixed : float -> nat -> string;
  getStroke : list Point -> float -> float -> float -> float -> list (list float)
}.

(** [HTMLCanvasElement]: the size of its drawing buffer and the size the
    page lays it out at. *)
Record Canvas := mkCanvas {
  width : float;
  height : float;
  clientWidth : float;
  clientHeight : float
}.

(** A reference to an object of the store. *)
Definition ref := nat.

(** The fields of the [Whiteboard] element, over the store of item objects.
    [items] holds references in array order, [currentDrawing] is a
    reference or [undefined]. *)
Record Whiteboard := mkWhiteboard {
  heap : list WhiteboardItem;
  canvas : option Canvas;
  items : list ref;
  canvasCoords : Point;
  currentDrawing : option ref;
  currentTool : string
}.

Definition set_heap (h : list WhiteboardItem) (s : Whiteboard) : Whiteboard :=
  mkWhiteboard h (canvas s) (items s) (canvasCoords s) (currentDrawing s) (currentTool s).

Definition set_canvas (c : option Canvas) (s : Whiteboard) : Whiteboard :=
  mkWhiteboard (heap s) c (items s) (canvasCoords s) (currentDrawing s) (currentTool s).

Definition set_items (l : list ref) (s : Whiteboard) : Whiteboard :=
  mkWhiteboard (heap s) (canvas s) l (canvasCoords s) (currentDrawing s) (currentTool s).

Definition set_canvasCoords (p : Point) (s : Whiteboard) : Whiteboard :=
  mkWhiteboard (heap s) (canvas s) (items s) p (currentDrawing s) (currentTool s).

Definition set_currentDrawing (d : option ref) (s : Whiteboard) : Whiteboard :=
  mkWhiteboard (heap s) (canvas s) (items s) (canvasCoords s) d (currentTool s).

Definition set_currentTool (t : string) (s : Whiteboard) : Whiteboard :=
  mkWhiteboard (heap s) (canvas s) (items s) (canvasCoords s) (currentDrawing s) t.

(** The element as constructed: no items, no pan, no draft, tool ["none"]. *)
Definition initial : Whiteboard :=
  mkWhiteboard [] None [] (mkPoint 0 0) None "none".

(** The object a reference denotes. *)
Definition deref (s : Whiteboard) (r : ref) : option WhiteboardItem :=
  heap s !! r.

(** An object literal: a new object in the store. *)
Definition alloc (item : WhiteboardItem) (s : Whiteboard) : ref * Whiteboard :=
  (length (heap s), set_heap (heap s ++ [item]) s).

(** A field assignment through a reference: the object is changed in
    place, for every holder of the reference. *)
Definition store (r : ref) (item : WhiteboardItem) (s : Whiteboard) : Whiteboard :=
  set_heap (<[r := item]> (heap s)) s.

(** The committed shapes, read through the store in array order. *)
Definition committed (s : Whiteboard) : list (option WhiteboardItem) :=
  deref s <$> items s.

(** The draft, read through the store. *)
Definition draft (s : Whiteboard) : option WhiteboardItem :=
  currentDrawing s ≫= deref s.

(** What a call leaves behind: the fields after it, what it painted, and
    the exception it threw, if any. *)
Record Outcome := mkOutcome {
  state : Whiteboard;
  painted : list DrawOp;
  thrown : option string
}.

(** A call that returns without painting. *)
Definition quiet (s : Whiteboard) : Outcome := mkOutcome s [] None.

(** A reference outside the store denotes no object.  No state of the
    program holds one (see [wf] below); the model stops there. *)
Definition no_object (s : Whiteboard) : Outcome :=
  mkOutcome s [] (Some "no object").

#[global] Instance completion_ret : MRet completion := λ A a, Ok a.
#[global] Instance completion_bind : MBind completion :=
  λ A B f m, match m with Ok a => f a | Throw e => Throw e end.

Section WithExternals.
Context `{Externals}.

Definition average (a b : float) : float := ((a + b) / 2)%float.

(** [a[i]]: a TypeError when [a] is [undefined]. *)
Definition index {A : Type} (a : option (list A)) (i : nat) : completion (option A) :=
  match a with
  | Some l => Ok (l !! i)
  | None => Throw "TypeError"
  end.

(** [v.toFixed(2)]: a TypeError when [v] is [undefined]. *)
Definition toFixed2 (v : option float) : completion string :=
  match v with
  | Some w => Ok (toFixed w 2)
  | None => Throw "TypeError"
  end.

(** A number operand: [undefined] converts to [NaN]. *)
Definition toNumber (v : option float) : float := default nan v.

(** The [for] loop of [getSvgPathFromStroke], over its successive values
    of [i]. *)
Fixpoint midpoints (points : list (list float)) (range : list nat) (result : string)
  : completion string :=
  match range with
  | [] => Ok result
  | i :: range' =>
    let a := points !! i in
    let b := points !! (i + 1) in
    a0 ← index a 0;
    b0 ← index b 0;
    a1 ← index a 1;
    b1 ← index b 1;
    midpoints points range'
      (result +:+ toFixed (average (toNumber a0) (toNumber b0)) 2 +:+ ","
              +:+ toFixed (average (toNumber a1) (toNumber b1)) 2 +:+ " ")
  end.

Definition getSvgPathFromStroke (points : list (list float)) (closed : bool)
  : completion string :=
  let len := length points in
  if len <? 4 then Ok EmptyString
  else
    let a : option (list float) := points !! 0 in
    let b := points !! 1 in
    let c := points !! 2 in
    a0 ← index a 0 ≫= toFixed2;
    a1 ← index a 1 ≫= toFixed2;
    b0 ← index b 0 ≫= toFixed2;
    b1 ← index b 1 ≫= toFixed2;
    b0' ← index b 0;
    c0 ← index c 0;
    b1' ← index b 1;
    c1 ← index c 1;
    let result :=
      "M" +:+ a0 +:+ "," +:+ a1 +:+ " Q" +:+ b0 +:+ "," +:+ b1 +:+ " "
          +:+ toFixed (average (toNumber b0') (toNumber c0)) 2 +:+ ","
          +:+ toFixed (average (toNumber b1') (toNumber c1)) 2 +:+ " T" in
    result ← midpoints points (seq 2 (len - 1 - 2)) result;
    Ok (if closed then result +:+ "Z" else result).

(** [drawItem]: the backend calls for one item, shifted by the pan offset.
    A ["move"] record matches no case. *)
Definition drawItem (s : Whiteboard) (item : WhiteboardItem) : completion (list DrawOp) :=
  let pan := canvasCoords s in
  match item with
  | WhiteboardRect x y width height options =>
    Ok [Rectangle (x + px pan) (y + py pan) width height options]
  | WhiteboardCircle x y diameter options =>
    Ok [Circle (x + px pan) (y + py pan) diameter options]
  | WhiteboardLine x1 y1 x2 y2 options =>
    Ok [Line (x1 + px pan) (y1 + py pan) (x2 + px pan) (y2 + py pan) options]
  | WhiteboardPen path options =>
    let outlinePoints :=
      getStroke ((λ p, mkPoint (px p + px pan) (py p + py pan)) <$> path)
                6 0.5 0.5 0.5 in
    pathData ← getSvgPathFromStroke outlinePoints true;
    Ok [FillPath pathData (string_or (color options) "black")]
  | WhiteboardMove _ _ => Ok []
  end.

(** [forEach (item => drawItem ...)] over references: it stops at the first
    exception, with what was painted before it. *)
Fixpoint drawItems (s : Whiteboard) (l : list ref) : list DrawOp * option string :=
  match l with
  | [] => ([], None)
  | r :: l' =>
    match deref s r with
    | None => ([], Some "no object")
    | Some item =>
      match drawItem s item with
      | Throw e => ([], Some e)
      | Ok ops => let '(ops', e) := drawItems s l' in (ops ++ ops', e)
      end
    end
  end.

(** [draw]: nothing without a canvas; else clear, replay every committed
    item, then the draft if there is one. *)
Definition draw (s : Whiteboard) : Outcome :=
  match canvas s with
  | None => quiet s
  | Some c =>
    let '(ops, e) := drawItems s (items s ++ option_list (currentDrawing s)) in
    mkOutcome s (ClearRect 0 0 (width c) (height c) :: ops) e
  end.

Definition handleResize (s : Whiteboard) : Outcome :=
  match canvas s with
  | None => quiet s
  | Some c =>
    draw (set_canvas (Some (mkCanvas (clientWidth c) (clientHeight c)
                                     (clientWidth c) (clientHeight c))) s)
  end.

Definition handleVisibilityChange (s : Whiteboard) : Outcome :=
  match canvas s with
  | None => quiet s
  | Some _ => draw s
  end.

(** The object literal assigned to [currentDrawing]. *)
Definition newDrawing (item : WhiteboardItem) (s : Whiteboard) : Whiteboard :=
  let '(r, s') := alloc item s in set_currentDrawing (Some r) s'.

Definition handleDrawingStart (x y : float) (s : Whiteboard) : Outcome :=
  let s := set_currentDrawing None s in
  let pan := canvasCoords s in
  let tool := currentTool s in
  quiet
    (if String.eqb tool "rect" then
       newDrawing (WhiteboardRect (x - px pan) (y - py pan) 0 0 Rough.noOptions) s
     else if String.eqb tool "circle" then
       newDrawing (WhiteboardCircle (x - px pan) (y - py pan) 0 Rough.noOptions) s
     else if String.eqb tool "line" then
       newDrawing (WhiteboardLine (x - px pan) (y - py pan)
                                  (x - px pan) (y - py pan) Rough.noOptions) s
     else if String.eqb tool "pen" then
       newDrawing (WhiteboardPen [mkPoint (x - px pan) (y - py pan)]
                                 (mkPenOptions None)) s
     else if String.eqb tool "move" then
       newDrawing (WhiteboardMove x y) s
     else s).

Definition handleDrawingMove (x y : float) (s : Whiteboard) : Outcome :=
  match currentDrawing s with
  | None => quiet s
  | Some r =>
    match deref s r with
    | None => no_object s
    | Some item =>
      let pan := canvasCoords s in
      draw
        match item with
        | WhiteboardRect currentX currentY _ _ options =>
          store r (WhiteboardRect currentX currentY
                     (x - currentX - px pan) (y - currentY - py pan) options) s
        | WhiteboardCircle x1 y1 _ options =>
          let x2 := (x - px pan)%float in
          let y2 := (y - py pan)%float in
          let dx := (x2 - x1)%float in
          let dy := (y2 - y1)%float in
          store r (WhiteboardCircle x1 y1
                     (PrimFloat.sqrt (dx * dx + dy * dy) * 2) options) s
        | WhiteboardLine x1 y1 _ _ options =>
          store r (WhiteboardLine x1 y1 (x - px pan) (y - py pan) options) s
        | WhiteboardPen path options =>
          store r (WhiteboardPen (path ++ [mkPoint (x - px pan) (y - py pan)])
                                 options) s
        | WhiteboardMove startX startY =>
          let moveX := (x - startX)%float in
          let moveY := (y - startY)%float in
          store r (WhiteboardMove x y)
            (set_canvasCoords (mkPoint (px pan + moveX) (py pan + moveY)) s)
        end
    end
  end.

Definition handleDrawingEnd (s : Whiteboard) : Outcome :=
  match currentDrawing s with
  | None => quiet s
  | Some r =>
    match deref s r with
    | None => no_object s
    | Some item =>
      let s :=
        if negb (String.eqb (kind item) "move")
        then set_items (items s ++ [r]) s
        else s in
      draw (set_currentDrawing None s)
    end
  end.

Definition handleTouchCancel (s : Whiteboard) : Outcome :=
  match currentDrawing s with
  | None => quiet s
  | Some _ => draw (set_currentDrawing None s)
  end.

(** The [canvas] listeners.  [Touch] and [DOMRect] are the parts of the
    touch and of [getBoundingClientRect()] that they read. *)
Record Touch := mkTouch { clientX : float; clientY : float }.
Record DOMRect := mkDOMRect { left : float; top : float }.

Definition handleMouseDown (offsetX offsetY : float) (s : Whiteboard) : Outcome :=
  handleDrawingStart offsetX offsetY s.

Definition handleMouseMove (offsetX offsetY : float) (s : Whiteboard) : Outcome :=
  handleDrawingMove offsetX offsetY s.

Definition handleMouseUp (s : Whiteboard) : Outcome := handleDrawingEnd s.

Definition handleTouchStart (touches : list Touch) (rect : DOMRect) (s : Whiteboard)
  : Outcome :=
  match touches, canvas s with
  | touch :: _, Some _ =>
    handleDrawingStart (clientX touch - left rect) (clientY touch - top rect) s
  | _, _ => quiet s
  end.

Definition handleTouchMove (touches : list Touch) (rect : DOMRect) (s : Whiteboard)
  : Outcome :=
  match touches, canvas s with
  | touch :: _, Some _ =>
    handleDrawingMove (clientX touch - left rect) (clientY touch - top rect) s
  | _, _ => quiet s
  end.

Definition handleTouchEnd (s : Whiteboard) : Outcome := handleDrawingEnd s.

(** [handleToolChange]: apart from the tool it only restyles the buttons. *)
Definition handleToolChange (tool : string) (s : Whiteboard) : Outcome :=
  quiet (set_currentTool tool s).

(** [firstUpdated], given what the shadow root's queries find: the canvas
    and whether the tools menu is there. *)
Definition firstUpdated (found : option Canvas) (toolsMenu : bool) (s : Whiteboard)
  : Outcome :=
  match found with
  | None => mkOutcome (set_canvas None s) [] (Some "Canvas not found")
  | Some c =>
    let s := set_canvas (Some c) s in
    if toolsMenu then handleResize s
    else mkOutcome s [] (Some "Tools menu not found")
  end.

(** *** Sessions *)

(** What reaches the element: calls of its methods.  The mouse and touch
    listeners return at once or forward to a [handleDrawing...] method, so
    they add no event of their own. *)
Inductive Event :=
| FirstUpdated (found : option Canvas) (toolsMenu : bool)
| Resize (clientWidth clientHeight : float)
| VisibilityChange
| DrawingStart (x y : float)
| DrawingMove (x y : float)
| DrawingEnd
| TouchCancel
| ToolChange (tool : string).

(** The window is resized: the page lays the canvas out anew. *)
Definition relayout (clientWidth clientHeight : float) (s : Whiteboard) : Whiteboard :=
  match canvas s with
  | None => s
  | Some c => set_canvas (Some (mkCanvas (width c) (height c) clientWidth clientHeight)) s
  end.

Definition handle (e : Event) (s : Whiteboard) : Outcome :=
  match e with
  | FirstUpdated found toolsMenu => firstUpdated found toolsMenu s
  | Resize w h => handleResize (relayout w h s)
  | VisibilityChange => handleVisibilityChange s
  | DrawingStart x y => handleDrawingStart x y s
  | DrawingMove x y => handleDrawingMove x y s
  | DrawingEnd => handleDrawingEnd s
  | TouchCancel => handleTouchCancel s
  | ToolChange tool => handleToolChange tool s
  end.

(** The fields after one event; an exception thrown by a listener does not
    undo what the listener did before it. *)
Definition step (s : Whiteboard) (e : Event) : Whiteboard := state (handle e s).

Definition run (es : list Event) (s : Whiteboard) : Whiteboard := foldl step s es.

(** The states a session can be in. *)
Definition reachable (s : Whiteboard) : Prop := ∃ es, s = run es initial.

End WithExternals.

(** No reference dangles, and the draft is not one of the committed
    objects. *)
Record wf (s : Whiteboard) : Prop := mk_wf {
  wf_items : Forall (λ r, r < length (heap s)) (items s);
  wf_draft : ∀ r, currentDrawing s = Some r → r < length (heap s) ∧ r ∉ items s
}.

End Viewer.

(** ** [src/tools/rect.ts] *)

Module ToolRect.

(** [interface RectItem extends WhiteboardItem].  The tool reads the
    whiteboard's draft through this interface ([currentDrawing as RectItem])
    once it has compared [kind] with its own name, so a draft of another
    tool is a record whose [kind] is another string. *)
Record RectItem := mkRectItem {
  kind : string;
  id : string;
  x : float;
  y : float;
  width : float;
  height : float;
  options : RoughCanvasOptions
}.

Record BoundingRect := mkBoundingRect {
  bounding_x : float;
  bounding_y : float;
  bounding_width : float;
  bounding_height : float
}.

(** The private fields of the tool element. *)
Record SimpleWhiteboardToolRect := mkTool {
  stroke : string;
  strokeWidth : float;
  fill : string
}.

Definition newTool : SimpleWhiteboardToolRect := mkTool "#000000" 2 "transparent".

(** The methods of the whiteboard element that the tool calls.  The element
    is not part of the sources at hand ([lib/SimpleWhiteboardTool] only
    hands out the instance), so the tool is modelled over any
    implementation of them. *)
Class SimpleWhiteboard (W : Type) := {
  getCurrentDrawing : W → option RectItem;
  setCurrentDrawing : option RectItem → W → W;
  addItem : RectItem → bool → W → W;
  getCanvasCoords : W → Point;
  coordsFromCanvasCoords : W → float → float → Point;
  coordsToCanvasCoords : W → float → float → Point;
  setSelectedItemId : option string → W → W
}.

Definition getToolName : string := "rect".

Definition getBoundingRect (item : RectItem) : option BoundingRect :=
  let strokeWidth := number_or (Rough.strokeWidth (options item)) 1 in
  let halfStrokeWidth := (strokeWidth / 2)%float in
  Some (mkBoundingRect (x item - halfStrokeWidth) (y item - halfStrokeWidth)
                       (width item + strokeWidth) (height item + strokeWidth)).

Definition getCoordsItem (item : RectItem) : Point := mkPoint (x item) (y item).

Definition setCoordsItem (item : RectItem) (x y : float) : RectItem :=
  mkRectItem (kind item) (id item) x y (width item) (height item) (options item).

Section WithWhiteboard.
Context {W : Type} `{SimpleWhiteboard W}.

(** Each method starts with [super.getSimpleWhiteboardInstance()], which
    may be [null]: [instance] is what it returns, and the result is the
    instance after the call. *)

Definition drawItem (item : RectItem) (instance : option W) : list DrawOp :=
  match instance with
  | None => []
  | Some simpleWhiteboard =>
    let p := coordsToCanvasCoords simpleWhiteboard (x item) (y item) in
    [Rectangle (px p) (py p) (width item) (height item) (options item)]
  end.

(** [itemId] is what [super.generateId()] returns. *)
Definition handleDrawingStart (tool : SimpleWhiteboardToolRect) (itemId : string)
    (x y : float) (instance : option W) : option W :=
  match instance with
  | None => None
  | Some simpleWhiteboard =>
    let p := coordsFromCanvasCoords simpleWhiteboard x y in
    let item :=
      mkRectItem getToolName itemId (px p) (py p) 0 0
        (Rough.mkOptions (Some (stroke tool)) (Some (strokeWidth tool))
                         (Some (fill tool))) in
    Some (setCurrentDrawing (Some item) simpleWhiteboard)
  end.

Definition handleDrawingMove (x y : float) (instance : option W) : option W :=
  match instance with
  | None => None
  | Some simpleWhiteboard =>
    match getCurrentDrawing simpleWhiteboard with
    | None => Some simpleWhiteboard
    | Some currentDrawing =>
      if negb (String.eqb (kind currentDrawing) getToolName)
      then Some simpleWhiteboard
      else
        let rectItem := currentDrawing in
        let currentX := ToolRect.x rectItem in
        let currentY := ToolRect.y rectItem in
        let canvas := getCanvasCoords simpleWhiteboard in
        Some (setCurrentDrawing
                (Some (mkRectItem (kind rectItem) (id rectItem)
                         (ToolRect.x rectItem) (ToolRect.y rectItem)
                         (x - currentX - px canvas) (y - currentY - py canvas)
                         (options rectItem)))
                simpleWhiteboard)
    end
  end.

Definition handleDrawingEnd (instance : option W) : option W :=
  match instance with
  | None => None
  | Some simpleWhiteboard =>
    match getCurrentDrawing simpleWhiteboard with
    | None => Some simpleWhiteboard
    | Some currentDrawing =>
      if negb (String.eqb (kind currentDrawing) getToolName)
      then Some simpleWhiteboard
      else
        let item := currentDrawing in
        Some (setCurrentDrawing None (addItem item true simpleWhiteboard))
    end
  end.

Definition onToolSelected (instance : option W) : option W :=
  match instance with
  | None => None
  | Some simpleWhiteboard => Some (setSelectedItemId None simpleWhiteboard)
  end.

End WithWhiteboard.

End ToolRect.

(** ** Stand-ins for running the model on concrete inputs *)

Module Sample.

(** [digits] decimals of [n / 10 ^ digits]. *)
Definition fixed_digits (n : N) (digits : nat) : string :=
  let str := pretty n in
  match digits with
  | O => str
  | _ =>
    let k := String.length str in
    let str :=
      if decide (k ≤ digits)
      then String.concat EmptyString (replicate (digits + 1 - k) "0") +:+ str
      else str in
    let k := String.length str in
    String.substring 0 (k - digits) str +:+ "."
      +:+ String.substring (k - digits) digits str
  end.

(** [Number.prototype.toFixed] on the exact value of the double, ties
    towards the larger magnitude; exact below 1e21 (from there on a
    browser prints an exponent). *)
Definition toFixed (v : float) (digits : nat) : string :=
  match Prim2SF v with
  | S754_nan => "NaN"
  | S754_infinity s => if s then "-Infinity" else "Infinity"
  | S754_zero _ => fixed_digits 0 digits
  | S754_finite s m e =>
    let scale := (10 ^ Z.of_nat digits)%Z in
    let n :=
      if decide (0 ≤ e)%Z
      then (Z.pos m * 2 ^ e * scale)%Z
      else ((2 * Z.pos m * scale + 2 ^ (- e)) `div` (2 * 2 ^ (- e)))%Z in
    (if s then "-" else EmptyString) +:+ fixed_digits (Z.to_N n) digits
  end.

(** In place of perfect-freehand's outline, a polygon of [[x, y]] pairs
    around the stroke, half of [size] away from it: nothing for no point,
    a dot (here a square) around a single point, else one side forth and
    the other side back.  Like the library it answers a stroke of one to
    three points with a polygon of at least four. *)
Definition getStroke (points : list Point) (size smoothing thinning streamline : float)
  : list (list float) :=
  let r := (size / 2)%float in
  match points with
  | [] => []
  | [p] =>
    [[px p - r; py p - r]; [px p + r; py p - r];
     [px p + r; py p + r]; [px p - r; py p + r]]%float
  | _ =>
    ((λ p, [px p; py p - r]%float) <$> points)
    ++ ((λ p, [px p; py p + r]%float) <$> reverse points)
  end.

Definition externals : Viewer.Externals := Viewer.Build_Externals toFixed getStroke.

(** Modelled from the spec: the whiteboard element that the tool plug-ins
    talk to ([simple-whiteboard] and [lib/SimpleWhiteboardTool], not among
    the sources): an ordered sequence of committed shapes, a single draft,
    a pan offset applied at draw time and the selected item. *)
Record Host := mkHost {
  hostItems : list ToolRect.RectItem;
  hostDrawing : option ToolRect.RectItem;
  hostCoords : Point;
  hostSelected : option string
}.

Definition host : ToolRect.SimpleWhiteboard Host := {|
  ToolRect.getCurrentDrawing := hostDrawing;
  ToolRect.setCurrentDrawing d h :=
    mkHost (hostItems h) d (hostCoords h) (hostSelected h);
  ToolRect.addItem item _ h :=
    mkHost (hostItems h ++ [item]) (hostDrawing h) (hostCoords h) (hostSelected h);
  ToolRect.getCanvasCoords := hostCoords;
  ToolRect.coordsFromCanvasCoords h x y :=
    mkPoint (x - px (hostCoords h)) (y - py (hostCoords h));
  ToolRect.coordsToCanvasCoords h x y :=
    mkPoint (x + px (hostCoords h)) (y + py (hostCoords h));
  ToolRect.setSelectedItemId sel h :=
    mkHost (hostItems h) (hostDrawing h) (hostCoords h) sel
|}.

End Sample.

Import Viewer.

(** ** Notions used in the statements *)

(** A session of the viewer, run with the stand-ins. *)
Definition session (es : list Event) : Whiteboard :=
  run (H := Sample.externals) es initial.

(** The pointer positions of successive [handleDrawingMove] calls. *)
Definition move_events (moves : list (float * float)) : list Event :=
  (λ p, DrawingMove p.1 p.2) <$> moves.

(** The Euclidean distance between two points, in binary64 arithmetic. *)
Definition distance (x1 y1 x2 y2 : float) : float :=
  PrimFloat.sqrt ((x2 - x1) * (x2 - x1) + (y2 - y1) * (y2 - y1))%float.

(** A pan offset advanced, move after move, by the pointer delta since the
    previous pointer position. *)
Fixpoint panned (pan : Point) (previous : float * float)
    (moves : list (float * float)) : Point :=
  match moves with
  | [] => pan
  | p :: rest =>
    panned (mkPoint (px pan + (p.1 - previous.1)) (py pan + (p.2 - previous.2)))
           p rest
  end.

(** What one [handleDrawingMove] makes of the draft object and of the pan
    offset, by the draft's kind. *)
Definition dragged (pan : Point) (item : WhiteboardItem) (x y : float)
  : WhiteboardItem :=
  match item with
  | WhiteboardRect currentX currentY _ _ options =>
    WhiteboardRect currentX currentY
      (x - currentX - px pan) (y - currentY - py pan) options
  | WhiteboardCircle x1 y1 _ options =>
    WhiteboardCircle x1 y1
      (PrimFloat.sqrt ((x - px pan - x1) * (x - px pan - x1)
                       + (y - py pan - y1) * (y - py pan - y1)) * 2) options
  | WhiteboardLine x1 y1 _ _ options =>
    WhiteboardLine x1 y1 (x - px pan) (y - py pan) options
  | WhiteboardPen path options =>
    WhiteboardPen (path ++ [mkPoint (x - px pan) (y - py pan)]) options
  | WhiteboardMove _ _ => WhiteboardMove x y
  end.

Definition repanned (pan : Point) (item : WhiteboardItem) (x y : float) : Point :=
  match item with
  | WhiteboardMove startX startY =>
    mkPoint (px pan + (x - startX)) (py pan + (y - startY))
  | _ => pan
  end.

(** The draft object and the pan offset after a sequence of moves. *)
Fixpoint drag (pan : Point) (item : WhiteboardItem) (moves : list (float * float))
  : WhiteboardItem * Point :=
  match moves with
  | [] => (item, pan)
  | p :: rest => drag (repanned pan item p.1 p.2) (dragged pan item p.1 p.2) rest
  end.

(** A session stopped in the middle of a rect gesture, on a panned board
    that already holds a line. *)
Definition rect_in_progress : Whiteboard :=
  session [FirstUpdated (Some (mkCanvas 300 150 640 480)) true;
           ToolChange "line"; DrawingStart 1 2; DrawingMove 5 7; DrawingEnd;
           ToolChange "move"; DrawingStart 0 0; DrawingMove 3 4; DrawingEnd;
           ToolChange "rect"; DrawingStart 10 20; DrawingMove 40 60].

(** A session stopped in the middle of a circle gesture, on a panned board. *)
Definition circle_in_progress : Whiteboard :=
  session [ToolChange "move"; DrawingStart 0 0; DrawingMove 3 4; DrawingEnd;
           ToolChange "circle"; DrawingStart 13 24].

(** Sessions stopped before a gesture, on a panned board that holds a
    circle, with the move, rect and line tools selected. *)
Definition before_gesture (tool : string) : Whiteboard :=
  session [ToolChange "circle"; DrawingStart 5 5; DrawingMove 8 9; DrawingEnd;
           ToolChange "move"; DrawingStart 0 0; DrawingMove 3 4; DrawingEnd;
           ToolChange tool].

(** A rect gesture interrupted by a change of tool: the pointer is still
    down, the draft is a rect, the active tool is ["circle"]. *)
Definition tool_changed_mid_gesture : Whiteboard :=
  session [ToolChange "rect"; DrawingStart 10 20; DrawingMove 40 60;
           ToolChange "circle"].

(** A rect's geometry padded by half of [strokeWidth] on each side. *)
Definition padded (item : ToolRect.RectItem) (strokeWidth : float)
  : ToolRect.BoundingRect :=
  ToolRect.mkBoundingRect
    (ToolRect.x item - strokeWidth / 2) (ToolRect.y item - strokeWidth / 2)
    (ToolRect.width item + strokeWidth) (ToolRect.height item + strokeWidth).

(** The stroke width an item's options give, 1 when they omit it. *)
Definition given_strokeWidth (item : ToolRect.RectItem) : float :=
  default 1%float (Rough.strokeWidth (ToolRect.options item)).

(** A rect item whose options give a stroke width of zero. *)
Definition hairline : ToolRect.RectItem :=
  ToolRect.mkRectItem "rect" "item-1" 10 10 20 20
    (Rough.mkOptions (Some "#000000") (Some 0%float) (Some "transparent")).

(** Whiteboards of the tool plug-ins whose draft is a circle, and a rect. *)
Definition host_with (kind : string) : Sample.Host :=
  Sample.mkHost []
    (Some (ToolRect.mkRectItem kind "item-2" 7 16 0 0
             (Rough.mkOptions (Some "#000000") (Some 2%float) (Some "transparent"))))
    (mkPoint 3 4) None.

(** A state no session reaches: the draft is the very object that [items]
    holds. *)
Definition aliased : Whiteboard :=
  mkWhiteboard [WhiteboardRect 0 0 1 1 Rough.noOptions] None [0] (mkPoint 0 0)
    (Some 0) "rect".

(** A rect gesture left without its pointer-up (the pointer was released
    outside the canvas), then the move tool selected. *)
Definition pending_rect_with_move_tool : Whiteboard :=
  session [ToolChange "rect"; DrawingStart 10 20; DrawingMove 40 60;
           ToolChange "move"].

(** A circle just started at the origin of an unpanned board. *)
Definition circle_at_origin : Whiteboard :=
  session [ToolChange "circle"; DrawingStart 0 0].

(** *** Notions for the further properties *)

Definition is_tool_change (e : Event) : bool :=
  match e with ToolChange _ => true | _ => false end.

Definition is_start (e : Event) : bool :=
  match e with DrawingStart _ _ => true | _ => false end.

Definition is_first_update (e : Event) : bool :=
  match e with FirstUpdated _ _ => true | _ => false end.

(** A sequence of events with the tool changes left out. *)
Definition without_tool_changes (es : list Event) : list Event :=
  List.filter (λ e, negb (is_tool_change e)) es.

(** The tools that [handleDrawingStart] knows. *)
Definition drawing_tools : list string := ["rect"; "circle"; "line"; "pen"; "move"].

(** A committed entry that denotes an object, and not a pan record. *)
Definition is_shape (entry : option WhiteboardItem) : Prop :=
  ∃ item, entry = Some item ∧ kind item ≠ "move".

(** The points of a pen stroke: the start and every move, each minus the
    pan offset. *)
Definition pen_path (pan : Point) (sx sy : float) (moves : list (float * float))
  : list Point :=
  mkPoint (sx - px pan) (sy - py pan)
  :: ((λ p, mkPoint (p.1 - px pan) (p.2 - py pan)) <$> moves).

(** A session with a canvas, stopped in the middle of a pen stroke, and the
    same before the page found the canvas. *)
Definition pen_in_progress (found : bool) : Whiteboard :=
  session ((if found then [FirstUpdated (Some (mkCanvas 300 150 640 480)) true]
            else [])
           ++ [ToolChange "pen"; DrawingStart 1 1; DrawingMove 2 3]).

(** A point as the averaging of [getSvgPathFromStroke] reads it: its first
    two coordinates, a missing one being NaN. *)
Definition with_NaN (p : list float) : list float :=
  [toNumber (p !! 0); toNumber (p !! 1)].

(** An outline library that answers with points without coordinates, and
    a session with a canvas stopped in the middle of a pen stroke under
    it. *)
Definition malformed_outline : Externals :=
  Build_Externals Sample.toFixed (λ _ _ _ _ _, [[]; []; []; []]).

Definition pen_on_malformed_outline : Whiteboard :=
  run (H := malformed_outline)
    [FirstUpdated (Some (mkCanvas 300 150 640 480)) true;
     ToolChange "pen"; DrawingStart 1 1; DrawingMove 2 3]
    initial.

(** ** The listeners of [renderToolOptions] in [src/tools/rect.ts]

    The template's closures, as functions of what they read: the input's
    [value] or [checked], the tool and the selected item.  The ones for a
    selected item give the item handed to [updateItemById].  (The stroke
    width listeners go through [parseInt] and are left out.) *)
Module ToolRectOptions.
Import ToolRect.

Definition strokeInput (value : string) (tool : SimpleWhiteboardToolRect)
  : SimpleWhiteboardToolRect :=
  mkTool value (strokeWidth tool) (fill tool).

Definition fillChange (checked : bool) (tool : SimpleWhiteboardToolRect)
  : SimpleWhiteboardToolRect :=
  mkTool (stroke tool) (strokeWidth tool)
    (if checked
     then if String.eqb (fill tool) "transparent" then "#000000" else fill tool
     else "transparent").

Definition fillInput (value : string) (tool : SimpleWhiteboardToolRect)
  : SimpleWhiteboardToolRect :=
  mkTool (stroke tool) (strokeWidth tool) value.


Definition itemStrokeInput (value : string) (item : RectItem) : RectItem :=
  mkRectItem (kind item) (id item) (x item) (y item) (width item) (height item)
    (Rough.mkOptions (Some value) (Rough.strokeWidth (options item))
                     (Rough.fill (options item))).


Definition itemFillInput (value : string) (item : RectItem) : RectItem :=
  mkRectItem (kind item) (id item) (x item) (y item) (width item) (height item)
    (Rough.mkOptions (Rough.stroke (options item)) (Rough.strokeWidth (options item))
                     (Some value)).


End ToolRectOptions.

Example sample_path :
  getSvgPathFromStroke (H := Sample.externals)
    [[0; 0]; [1; 1]; [2; 3]; [4; 4]; [6; 5]]%float true
  = Ok "M0.00,0.00 Q1.00,1.00 1.50,2.00 T3.00,3.50 5.00,4.50 Z".
Proof. vm_compute. reflexivity. Qed.

(** ** Properties of the viewer *)

Section Drawing.
Context `{Externals}.

(** A touch listener does nothing or is the method call it forwards to. *)
Lemma touch_listeners_forward (touches : list Touch) (rect : DOMRect) (s : Whiteboard) :
  (handleTouchStart touches rect s = quiet s
   ∨ ∃ x y, handleTouchStart touches rect s = handleDrawingStart x y s)
  ∧ (handleTouchMove touches rect s = quiet s
     ∨ ∃ x y, handleTouchMove touches rect s = handleDrawingMove x y s).
Proof.
  unfold handleTouchStart, handleTouchMove.
  destruct touches as [|touch touches], (canvas s);
    split; first [left; reflexivity | right; eexists _, _; reflexivity].
Qed.

(** [draw] reads the fields and changes none. *)
Lemma state_draw (s : Whiteboard) : state (draw s) = s.
Proof.
  unfold draw. destruct (canvas s); [|reflexivity].
  destruct (drawItems _ _). reflexivity.
Qed.

End Drawing.

(** C9: with no draft, [handleDrawingMove] and [handleDrawingEnd] return at
    once: same fields (items, pan offset and draft among them), nothing
    painted, nothing thrown. *)
Theorem no_draft_move_end_noop `{Externals} (s : Whiteboard) (x y : float) :
  currentDrawing s = None →
  handleDrawingMove x y s = mkOutcome s [] None
  ∧ handleDrawingEnd s = mkOutcome s [] None.
Proof.
  intros Hnone. unfold handleDrawingMove, handleDrawingEnd.
  rewrite Hnone. split; reflexivity.
Qed.

Lemma no_draft_move_end_noop_witness :
  currentDrawing initial = None
  ∧ handleDrawingMove (H := Sample.externals) 3 4 initial = mkOutcome initial [] None
  ∧ handleDrawingEnd (H := Sample.externals) initial = mkOutcome initial [] None.
Proof.
  split; [reflexivity | apply (no_draft_move_end_noop initial 3 4); reflexivity].
Defined.

(** C10: [handleTouchCancel] on a state with a draft drops the draft and
    commits nothing: the array of items, the objects in it and the pan
    offset are as before. *)
Theorem touch_cancel_discards `{Externals} (s : Whiteboard) (r : ref) :
  currentDrawing s = Some r →
  let s' := state (handleTouchCancel s) in
  currentDrawing s' = None
  ∧ items s' = items s
  ∧ committed s' = committed s
  ∧ canvasCoords s' = canvasCoords s.
Proof.
  intros Hd. unfold handleTouchCancel. rewrite Hd, state_draw.
  repeat split; reflexivity.
Qed.

Lemma touch_cancel_discards_witness :
  currentDrawing rect_in_progress = Some 2
  ∧ let s' := state (handleTouchCancel (H := Sample.externals) rect_in_progress) in
    currentDrawing s' = None
    ∧ items s' = items rect_in_progress
    ∧ committed s' = committed rect_in_progress
    ∧ canvasCoords s' = canvasCoords rect_in_progress.
Proof.
  split; [reflexivity|].
  apply (touch_cancel_discards rect_in_progress 2). reflexivity.
Defined.

Section Invariant.
Context `{Externals}.

Lemma wf_initial : wf initial.
Proof. split; [constructor | discriminate]. Qed.

Lemma wf_no_draft (s : Whiteboard) : wf s → wf (set_currentDrawing None s).
Proof. intros [Hi _]. split; [exact Hi | discriminate]. Qed.

Lemma wf_newDrawing (item : WhiteboardItem) (s : Whiteboard) :
  wf s → wf (newDrawing item (set_currentDrawing None s)).
Proof.
  intros [Hi _]. split; simpl.
  - rewrite length_app. simpl. eapply Forall_impl; [exact Hi|].
    simpl. intros; lia.
  - intros r [= <-]. rewrite length_app. simpl. split; [lia|].
    intros Hin. rewrite Forall_forall in Hi. apply Hi in Hin. lia.
Qed.

Lemma wf_store (r : ref) (item : WhiteboardItem) (s : Whiteboard) :
  wf s → wf (store r item s).
Proof.
  intros [Hi Hd]. split; simpl; rewrite length_insert; assumption.
Qed.

Lemma wf_set_canvasCoords (p : Point) (s : Whiteboard) :
  wf s → wf (set_canvasCoords p s).
Proof. intros [Hi Hd]. split; assumption. Qed.

Lemma wf_set_canvas (c : option Canvas) (s : Whiteboard) : wf s → wf (set_canvas c s).
Proof. intros [Hi Hd]. split; assumption. Qed.

Lemma wf_set_currentTool (t : string) (s : Whiteboard) :
  wf s → wf (set_currentTool t s).
Proof. intros [Hi Hd]. split; assumption. Qed.

Lemma wf_commit (r : ref) (s : Whiteboard) :
  wf s → currentDrawing s = Some r →
  wf (set_currentDrawing None (set_items (items s ++ [r]) s)).
Proof.
  intros [Hi Hd] Hr. split; simpl; [|discriminate].
  apply Forall_app. split; [exact Hi|].
  constructor; [|constructor]. apply (Hd r Hr).
Qed.

Lemma wf_handleDrawingStart (x y : float) (s : Whiteboard) :
  wf s → wf (state (handleDrawingStart x y s)).
Proof.
  intros Hwf. unfold handleDrawingStart. simpl.
  repeat case_match; auto using wf_newDrawing, wf_no_draft.
Qed.

Lemma wf_handleDrawingMove (x y : float) (s : Whiteboard) :
  wf s → wf (state (handleDrawingMove x y s)).
Proof.
  intros Hwf. unfold handleDrawingMove.
  destruct (currentDrawing s) as [r|]; [|exact Hwf].
  destruct (deref s r) as [item|]; [|exact Hwf].
  rewrite state_draw.
  destruct item; auto using wf_store, wf_set_canvasCoords.
Qed.

Lemma wf_handleDrawingEnd (s : Whiteboard) :
  wf s → wf (state (handleDrawingEnd s)).
Proof.
  intros Hwf. unfold handleDrawingEnd.
  destruct (currentDrawing s) as [r|] eqn:Hr; [|exact Hwf].
  destruct (deref s r) as [item|]; [|exact Hwf].
  rewrite state_draw.
  destruct (negb _); auto using wf_commit, wf_no_draft.
Qed.

Lemma wf_handleTouchCancel (s : Whiteboard) :
  wf s → wf (state (handleTouchCancel s)).
Proof.
  intros Hwf. unfold handleTouchCancel.
  destruct (currentDrawing s); [|exact Hwf].
  rewrite state_draw. auto using wf_no_draft.
Qed.

Lemma wf_handleResize (s : Whiteboard) : wf s → wf (state (handleResize s)).
Proof.
  intros Hwf. unfold handleResize.
  destruct (canvas s); [|exact Hwf].
  rewrite state_draw. auto using wf_set_canvas.
Qed.

Lemma wf_step (e : Event) (s : Whiteboard) : wf s → wf (step s e).
Proof.
  intros Hwf. unfold step.
  destruct e as [found menu| | | | | | |]; cbn [handle].
  - unfold firstUpdated. destruct found as [c|]; [|apply wf_set_canvas, Hwf].
    destruct menu; [|apply wf_set_canvas, Hwf].
    apply wf_handleResize, wf_set_canvas, Hwf.
  - apply wf_handleResize. unfold relayout.
    destruct (canvas s); [apply wf_set_canvas|]; exact Hwf.
  - unfold handleVisibilityChange. destruct (canvas s); [|exact Hwf].
    rewrite state_draw. exact Hwf.
  - auto using wf_handleDrawingStart.
  - auto using wf_handleDrawingMove.
  - auto using wf_handleDrawingEnd.
  - auto using wf_handleTouchCancel.
  - apply wf_set_currentTool, Hwf.
Qed.

Lemma wf_run (es : list Event) (s : Whiteboard) : wf s → wf (run es s).
Proof.
  revert s. induction es as [|e es IH]; intros s Hwf; [exact Hwf|].
  simpl. apply IH, wf_step, Hwf.
Qed.

(** Every state of a session is well formed. *)
Lemma reachable_wf (s : Whiteboard) : reachable s → wf s.
Proof. intros [es ->]. apply wf_run, wf_initial. Qed.

End Invariant.

(** *** The committed objects under the store operations *)

Lemma committed_store (r : ref) (item : WhiteboardItem) (s : Whiteboard) :
  r ∉ items s → committed (store r item s) = committed s.
Proof.
  intros Hr. unfold committed, deref. simpl.
  apply list_fmap_ext. intros i r' Hi.
  apply list_lookup_insert_ne. intros ->.
  apply Hr, list_elem_of_lookup. eauto.
Qed.

Lemma committed_newDrawing (item : WhiteboardItem) (s : Whiteboard) :
  Forall (λ r, r < length (heap s)) (items s) →
  committed (newDrawing item s) = committed s.
Proof.
  intros Hi. unfold committed, deref. simpl.
  apply list_fmap_ext. intros i r Hr.
  apply lookup_app_l. rewrite Forall_forall in Hi.
  apply Hi, list_elem_of_lookup. eauto.
Qed.

Lemma committed_push (r : ref) (s : Whiteboard) :
  committed (set_items (items s ++ [r]) s) = committed s ++ [deref s r].
Proof. unfold committed. simpl. rewrite fmap_app. reflexivity. Qed.

Lemma deref_store (r : ref) (item : WhiteboardItem) (s : Whiteboard) :
  r < length (heap s) → deref (store r item s) r = Some item.
Proof. intros Hr. unfold deref. simpl. apply list_lookup_insert_eq, Hr. Qed.

Lemma deref_valid (s : Whiteboard) (r : ref) (item : WhiteboardItem) :
  deref s r = Some item → r < length (heap s).
Proof. unfold deref. apply lookup_lt_Some. Qed.

Lemma draft_valid (s : Whiteboard) (r : ref) :
  wf s → currentDrawing s = Some r → ∃ item, deref s r = Some item.
Proof.
  intros Hwf Hr. destruct (wf_draft s Hwf r Hr) as [Hlt _].
  apply lookup_lt_is_Some in Hlt. destruct Hlt as [item Hitem]. eauto.
Qed.

(** *** The handlers, by what they do to the fields *)

Lemma set_canvasCoords_same (s : Whiteboard) : set_canvasCoords (canvasCoords s) s = s.
Proof. destruct s; reflexivity. Qed.

Lemma handleDrawingMove_state `{Externals} (s : Whiteboard) (r : ref)
    (item : WhiteboardItem) (x y : float) :
  currentDrawing s = Some r → deref s r = Some item →
  state (handleDrawingMove x y s)
  = store r (dragged (canvasCoords s) item x y)
      (set_canvasCoords (repanned (canvasCoords s) item x y) s).
Proof.
  intros Hr Hitem. unfold handleDrawingMove. rewrite Hr, Hitem, state_draw.
  destruct item; simpl; rewrite ?set_canvasCoords_same; reflexivity.
Qed.

Lemma handleDrawingEnd_state `{Externals} (s : Whiteboard) (r : ref)
    (item : WhiteboardItem) :
  currentDrawing s = Some r → deref s r = Some item →
  state (handleDrawingEnd s)
  = set_currentDrawing None
      (if negb (String.eqb (kind item) "move")
       then set_items (items s ++ [r]) s else s).
Proof.
  intros Hr Hitem. unfold handleDrawingEnd. rewrite Hr, Hitem, state_draw.
  reflexivity.
Qed.

(** C7: after [handleDrawingEnd], in any state of a session, there is no
    draft: with none before, none was created; with one before, it was
    cleared, whether pushed onto [items] (any kind but ["move"]) or not. *)
Theorem handleDrawingEnd_clears_draft `{Externals} (s : Whiteboard) :
  reachable s → currentDrawing (state (handleDrawingEnd s)) = None.
Proof.
  intros Hs. apply reachable_wf in Hs.
  destruct (currentDrawing s) as [r|] eqn:Hr.
  - destruct (draft_valid s r Hs Hr) as [item Hitem].
    rewrite (handleDrawingEnd_state s r item Hr Hitem). reflexivity.
  - unfold handleDrawingEnd. rewrite Hr. exact Hr.
Qed.

Lemma handleDrawingEnd_clears_draft_witness :
  reachable (H := Sample.externals) rect_in_progress
  ∧ currentDrawing (state (handleDrawingEnd (H := Sample.externals) rect_in_progress))
    = None.
Proof.
  split; [eexists; reflexivity|].
  apply handleDrawingEnd_clears_draft. eexists; reflexivity.
Defined.

Example rect_in_progress_fields :
  items rect_in_progress = [0]
  ∧ committed rect_in_progress = [Some (WhiteboardLine 1 2 5 7 Rough.noOptions)]
  ∧ canvasCoords rect_in_progress = mkPoint 3 4
  ∧ draft rect_in_progress = Some (WhiteboardRect 7 16 30 40 Rough.noOptions).
Proof. vm_compute. repeat split. Qed.

(** *** Append-only items *)

Section Frame.
Context `{Externals}.

Lemma handleDrawingStart_items (x y : float) (s : Whiteboard) :
  wf s →
  items (state (handleDrawingStart x y s)) = items s
  ∧ committed (state (handleDrawingStart x y s)) = committed s.
Proof.
  intros [Hi _]. unfold handleDrawingStart. simpl.
  repeat case_match; split; try reflexivity;
    apply (committed_newDrawing _ (set_currentDrawing None s)); exact Hi.
Qed.

Lemma handleDrawingMove_items (x y : float) (s : Whiteboard) :
  wf s →
  items (state (handleDrawingMove x y s)) = items s
  ∧ committed (state (handleDrawingMove x y s)) = committed s.
Proof.
  intros Hwf.
  destruct (currentDrawing s) as [r|] eqn:Hr.
  - destruct (draft_valid s r Hwf Hr) as [item Hitem].
    rewrite (handleDrawingMove_state s r item x y Hr Hitem).
    split; [reflexivity|].
    rewrite committed_store; [reflexivity|].
    apply (wf_draft s Hwf r Hr).
  - unfold handleDrawingMove. rewrite Hr. split; reflexivity.
Qed.

Lemma handleDrawingEnd_items (s : Whiteboard) :
  wf s →
  let s' := state (handleDrawingEnd s) in
  (items s' = items s ∧ committed s' = committed s)
  ∨ (∃ r item, currentDrawing s = Some r ∧ deref s r = Some item
               ∧ kind item ≠ "move"
               ∧ items s' = items s ++ [r]
               ∧ committed s' = committed s ++ [Some item]).
Proof.
  intros Hwf s'. subst s'.
  destruct (currentDrawing s) as [r|] eqn:Hr.
  - destruct (draft_valid s r Hwf Hr) as [item Hitem].
    rewrite (handleDrawingEnd_state s r item Hr Hitem).
    destruct (String.eqb (kind item) "move") eqn:Hk; simpl.
    + left. split; reflexivity.
    + right. exists r, item. apply String.eqb_neq in Hk.
      repeat split; try assumption.
      change (committed (set_items (items s ++ [r]) s) = committed s ++ [Some item]).
      rewrite committed_push, Hitem. reflexivity.
  - left. unfold handleDrawingEnd. rewrite Hr. split; reflexivity.
Qed.

Lemma handleResize_store (s : Whiteboard) :
  items (state (handleResize s)) = items s ∧ heap (state (handleResize s)) = heap s.
Proof.
  unfold handleResize. destruct (canvas s); [rewrite state_draw|]; split; reflexivity.
Qed.

Lemma redraw_items (e : Event) (s : Whiteboard) :
  match e with
  | FirstUpdated _ _ | Resize _ _ | VisibilityChange | TouchCancel | ToolChange _ => True
  | _ => False
  end →
  items (step s e) = items s ∧ heap (step s e) = heap s.
Proof.
  unfold step. destruct e as [found menu|w h| | | | | |]; intros []; cbn [handle].
  - unfold firstUpdated.
    destruct found as [c|]; [|split; reflexivity].
    destruct menu; [|split; reflexivity].
    apply (handleResize_store (set_canvas (Some c) s)).
  - destruct (handleResize_store (relayout w h s)) as [-> ->].
    unfold relayout. destruct (canvas s); split; reflexivity.
  - unfold handleVisibilityChange. destruct (canvas s); [|split; reflexivity].
    rewrite state_draw. split; reflexivity.
  - unfold handleTouchCancel. destruct (currentDrawing s); [|split; reflexivity].
    rewrite state_draw. split; reflexivity.
  - split; reflexivity.
Qed.

Lemma step_items (e : Event) (s : Whiteboard) :
  wf s →
  (items (step s e) = items s ∧ committed (step s e) = committed s)
  ∨ (∃ r item, items (step s e) = items s ++ [r]
               ∧ committed (step s e) = committed s ++ [Some item]).
Proof.
  intros Hwf.
  assert (Hredraw : items (step s e) = items s ∧ heap (step s e) = heap s →
                    items (step s e) = items s ∧ committed (step s e) = committed s).
  { intros [Hi Hh]. split; [exact Hi|]. unfold committed, deref. rewrite Hi, Hh.
    reflexivity. }
  destruct e as [found menu| | | | | | |];
    try (left; apply Hredraw, redraw_items; exact I).
  - left. apply handleDrawingStart_items, Hwf.
  - left. apply handleDrawingMove_items, Hwf.
  - destruct (handleDrawingEnd_items s Hwf) as [Hsame|(r & item & _ & _ & _ & Hi & Hc)].
    + left. exact Hsame.
    + right. exists r, item. split; assumption.
Qed.

End Frame.

(** C6: in a session, every event ([handleDrawingStart],
    [handleDrawingMove], [handleDrawingEnd], [handleTouchCancel],
    [handleToolChange], and the redraw triggers) leaves the array of items
    and the objects in it as they are, or adds exactly one element at the
    end, in front of which the committed items are what they were, in the
    same order. *)
Theorem items_append_only `{Externals} (s : Whiteboard) (e : Event) :
  reachable s →
  let s' := state (handle e s) in
  (items s' = items s ∧ committed s' = committed s)
  ∨ (∃ r item, items s' = items s ++ [r]
               ∧ committed s' = committed s ++ [Some item]).
Proof. intros Hs. apply (step_items e s), reachable_wf, Hs. Qed.

Lemma items_append_only_witness :
  reachable (H := Sample.externals) rect_in_progress
  ∧ let s' := state (handle (H := Sample.externals) DrawingEnd rect_in_progress) in
    (items s' = items rect_in_progress ∧ committed s' = committed rect_in_progress)
    ∨ (∃ r item, items s' = items rect_in_progress ++ [r]
                 ∧ committed s' = committed rect_in_progress ++ [Some item]).
Proof.
  split; [eexists; reflexivity|].
  apply (items_append_only rect_in_progress DrawingEnd). eexists; reflexivity.
Defined.

(** X10: over a whole run of events, from any state of a session, the
    committed items only grow at the end: what was committed stays, in
    place and unchanged, in front of what is committed later. *)
Lemma committed_prefix_run `{Externals} (es : list Event) (s : Whiteboard) :
  reachable s → committed s `prefix_of` committed (run es s).
Proof.
  intros Hs. apply reachable_wf in Hs. revert s Hs.
  induction es as [|e es IH]; intros s Hs; simpl; [reflexivity|].
  etrans; [|apply IH, wf_step, Hs].
  destruct (step_items e s Hs) as [[_ ->]|(r & item & _ & ->)];
    [reflexivity|apply prefix_app_r; reflexivity].
Qed.

(** Append-only needs its hypothesis: were the draft one of the committed
    objects, a move would change a committed item in place.  No session
    gets there. *)
Example aliased_draft_changes_committed :
  committed aliased = [Some (WhiteboardRect 0 0 1 1 Rough.noOptions)]
  ∧ committed (state (handleDrawingMove (H := Sample.externals) 5 7 aliased))
    = [Some (WhiteboardRect 0 0 5 7 Rough.noOptions)]
  ∧ ¬ wf aliased.
Proof.
  split; [reflexivity|]. split; [reflexivity|].
  intros [_ Hd]. destruct (Hd 0 eq_refl) as [_ Hnot].
  apply Hnot. constructor.
Qed.

(** *** Circles *)

(** C5, as stated, fails where the sum of squares overflows: from the
    anchor [(0, 0)] a move to [(2^600, 0)] is at distance [2^600], twice
    which is the double [2^601], but [dx * dx] is already infinite and the
    diameter stored is [Infinity]. *)
Lemma huge_circle_diameter_is_infinite :
  draft circle_at_origin = Some (WhiteboardCircle 0 0 0 Rough.noOptions)
  ∧ canvasCoords circle_at_origin = mkPoint 0 0
  ∧ draft (state (handleDrawingMove (H := Sample.externals) 0x1p600 0
                    circle_at_origin))
    = Some (WhiteboardCircle 0 0 infinity Rough.noOptions)
  ∧ (0x1p600 * 2 = 0x1p601)%float
  ∧ PrimFloat.ltb 0x1p601 infinity = true.
Proof. vm_compute. repeat split. Qed.

(** C5, amended: [handleDrawingMove] at [(x, y)] on a circle draft anchored
    at [(x1, y1)] keeps the anchor and the options and stores, as diameter,
    [sqrt (dx * dx + dy * dy) * 2] as binary64 arithmetic evaluates it,
    [dx] and [dy] being the differences between [(x - panX, y - panY)] and
    the anchor: twice the distance up to rounding, and [Infinity] when the
    sum of squares overflows; items and pan offset stay. *)
Theorem circle_move_sets_diameter `{Externals} (s : Whiteboard) (r : ref)
    (x y x1 y1 d : float) (options : RoughCanvasOptions) :
  currentDrawing s = Some r →
  deref s r = Some (WhiteboardCircle x1 y1 d options) →
  let pan := canvasCoords s in
  let s' := state (handleDrawingMove x y s) in
  draft s'
  = Some (WhiteboardCircle x1 y1
            (distance x1 y1 (x - px pan) (y - py pan) * 2) options)
  ∧ items s' = items s
  ∧ canvasCoords s' = pan.
Proof.
  intros Hr Hitem pan s'. subst s'.
  rewrite (handleDrawingMove_state s r _ x y Hr Hitem).
  split; [|split; reflexivity].
  unfold draft. simpl. rewrite Hr. simpl.
  apply list_lookup_insert_eq, (deref_valid s r _ Hitem).
Qed.

Lemma circle_move_sets_diameter_witness :
  currentDrawing circle_in_progress = Some 1
  ∧ deref circle_in_progress 1 = Some (WhiteboardCircle 10 20 0 Rough.noOptions)
  ∧ let s' := state (handleDrawingMove (H := Sample.externals) 16 28 circle_in_progress) in
    draft s'
    = Some (WhiteboardCircle 10 20 (distance 10 20 (16 - 3) (28 - 4) * 2)
              Rough.noOptions)
    ∧ items s' = items circle_in_progress
    ∧ canvasCoords s' = mkPoint 3 4.
Proof.
  split; [reflexivity|]. split; [reflexivity|].
  apply (circle_move_sets_diameter circle_in_progress 1 16 28 10 20 0 Rough.noOptions);
    reflexivity.
Defined.

Example circle_diameter_value :
  draft (state (handleDrawingMove (H := Sample.externals) 16 28 circle_in_progress))
  = Some (WhiteboardCircle 10 20 10 Rough.noOptions).
Proof. vm_compute. reflexivity. Qed.

(** *** Gestures *)

Lemma run_app `{Externals} (es1 es2 : list Event) (s : Whiteboard) :
  run (es1 ++ es2) s = run es2 (run es1 s).
Proof. apply foldl_app. Qed.

Section Gestures.
Context `{Externals}.

(** Pointer-down with a tool that draws: a new object becomes the draft. *)
Lemma newDrawing_fields (item : WhiteboardItem) (s : Whiteboard) :
  wf s →
  let t := newDrawing item (set_currentDrawing None s) in
  wf t
  ∧ currentDrawing t = Some (length (heap s))
  ∧ deref t (length (heap s)) = Some item
  ∧ canvasCoords t = canvasCoords s
  ∧ items t = items s ∧ committed t = committed s
  ∧ currentTool t = currentTool s ∧ canvas t = canvas s.
Proof.
  intros Hwf t. subst t. split; [apply wf_newDrawing, Hwf|].
  split; [reflexivity|]. split.
  { unfold deref. simpl. apply list_lookup_middle. reflexivity. }
  split; [reflexivity|]. split; [reflexivity|]. split; [|split; reflexivity].
  apply (committed_newDrawing item (set_currentDrawing None s)), Hwf.
Qed.

(** Any number of moves on a draft: only the draft object and, for a
    ["move"] draft, the pan offset change. *)
Lemma run_moves (moves : list (float * float)) :
  ∀ (t : Whiteboard) (r : ref) (item : WhiteboardItem),
  wf t → currentDrawing t = Some r → deref t r = Some item →
  let t' := run (move_events moves) t in
  wf t'
  ∧ currentDrawing t' = Some r
  ∧ deref t' r = Some (drag (canvasCoords t) item moves).1
  ∧ canvasCoords t' = (drag (canvasCoords t) item moves).2
  ∧ items t' = items t ∧ committed t' = committed t
  ∧ currentTool t' = currentTool t ∧ canvas t' = canvas t.
Proof.
  induction moves as [|[x y] moves IH]; intros t r item Hwf Hr Hitem; simpl.
  { split; [exact Hwf|]. split; [exact Hr|]. split; [exact Hitem|].
    repeat split; reflexivity. }
  pose proof (wf_step (DrawingMove x y) t Hwf) as Hwf1.
  pose proof (handleDrawingMove_items x y t Hwf) as [Hi1 Hc1].
  unfold step in *. cbn [handle] in *.
  rewrite (handleDrawingMove_state t r item x y Hr Hitem) in *.
  set (t1 := store r _ _) in *.
  assert (Hitem1 : deref t1 r = Some (dragged (canvasCoords t) item x y)).
  { apply deref_store. simpl. apply (deref_valid t r item Hitem). }
  destruct (IH t1 r _ Hwf1 Hr Hitem1) as (H1 & H2 & H3 & H4 & H5 & H6 & H7 & H8).
  split; [exact H1|]. split; [exact H2|]. split; [exact H3|]. split; [exact H4|].
  split; [rewrite H5; exact Hi1|]. split; [rewrite H6; exact Hc1|].
  split; [rewrite H7|rewrite H8]; reflexivity.
Qed.

Lemma drag_move (moves : list (float * float)) :
  ∀ (pan : Point) (previous : float * float),
  ∃ p, drag pan (WhiteboardMove previous.1 previous.2) moves
       = (WhiteboardMove p.1 p.2, panned pan previous moves).
Proof.
  induction moves as [|p moves IH]; intros pan previous; simpl.
  - exists previous. reflexivity.
  - apply IH.
Qed.

Lemma drag_rect (moves : list (float * float)) :
  ∀ (pan : Point) (ax ay w h mx my : float) (o : RoughCanvasOptions),
  drag pan (WhiteboardRect ax ay w h o) (moves ++ [(mx, my)])
  = (WhiteboardRect ax ay (mx - ax - px pan) (my - ay - py pan) o, pan).
Proof.
  induction moves as [|p moves IH]; intros; simpl; [reflexivity|apply IH].
Qed.

Lemma drag_line (moves : list (float * float)) :
  ∀ (pan : Point) (ax ay x2 y2 mx my : float) (o : RoughCanvasOptions),
  drag pan (WhiteboardLine ax ay x2 y2 o) (moves ++ [(mx, my)])
  = (WhiteboardLine ax ay (mx - px pan) (my - py pan) o, pan).
Proof.
  induction moves as [|p moves IH]; intros; simpl; [reflexivity|apply IH].
Qed.

End Gestures.

Lemma handleDrawingStart_tool `{Externals} (s : Whiteboard) (x y : float) :
  let pan := canvasCoords s in
  let begun item := state (handleDrawingStart x y s)
                    = newDrawing item (set_currentDrawing None s) in
  (currentTool s = "rect" →
   begun (WhiteboardRect (x - px pan) (y - py pan) 0 0 Rough.noOptions))
  ∧ (currentTool s = "line" →
     begun (WhiteboardLine (x - px pan) (y - py pan) (x - px pan) (y - py pan)
              Rough.noOptions))
  ∧ (currentTool s = "move" → begun (WhiteboardMove x y)).
Proof.
  unfold handleDrawingStart. simpl.
  repeat split; intros ->; reflexivity.
Qed.

(** C3, as stated, fails where a draft is pending: the gesture changes the
    draft too.  Its pointer-down discards the rect draft that an unfinished
    gesture left (uncommitted), so after the gesture there is no draft
    where there was one. *)
Lemma move_gesture_discards_pending_draft :
  let s := pending_rect_with_move_tool in
  let released :=
    run (H := Sample.externals) [DrawingStart 0 0; DrawingMove 3 4; DrawingEnd] s in
  currentTool s = "move"
  ∧ currentDrawing s = Some 0
  ∧ draft s = Some (WhiteboardRect 10 20 30 40 Rough.noOptions)
  ∧ currentDrawing released = None
  ∧ draft released = None
  ∧ committed released = []
  ∧ canvasCoords released = mkPoint 3 4.
Proof. vm_compute. repeat split. Qed.

(** C3, amended: a gesture with the ["move"] tool, from any state of a
    session, changes the pan offset and the draft only.  While dragging
    (after the start and any moves) and after the release, [items] and the
    committed objects are what they were, as are the tool and the canvas;
    the pan offset is the old one advanced, move by move, by the pointer
    delta since the previous position; after the release there is no
    draft, so with no draft pending before the gesture the draft field is
    as it was, and a pending one is discarded without being committed. *)
Theorem move_gesture_only_pans `{Externals} (s : Whiteboard) (x0 y0 : float)
    (moves : list (float * float)) :
  reachable s → currentTool s = "move" →
  let dragging := run (DrawingStart x0 y0 :: move_events moves) s in
  let released := state (handleDrawingEnd dragging) in
  (items dragging = items s ∧ committed dragging = committed s
   ∧ canvasCoords dragging = panned (canvasCoords s) (x0, y0) moves
   ∧ currentTool dragging = currentTool s ∧ canvas dragging = canvas s)
  ∧ (items released = items s ∧ committed released = committed s
     ∧ canvasCoords released = panned (canvasCoords s) (x0, y0) moves
     ∧ currentDrawing released = None
     ∧ currentTool released = currentTool s ∧ canvas released = canvas s
     ∧ (currentDrawing s = None → currentDrawing released = currentDrawing s)).
Proof.
  intros Hs Htool dragging released. apply reachable_wf in Hs.
  destruct (handleDrawingStart_tool s x0 y0) as (_ & _ & Hstart).
  specialize (Hstart Htool).
  destruct (newDrawing_fields (WhiteboardMove x0 y0) s Hs)
    as (Hwf0 & Hr0 & Hitem0 & Hpan0 & Hi0 & Hc0 & Ht0 & Hcv0).
  rewrite <- Hstart in Hwf0, Hr0, Hitem0, Hpan0, Hi0, Hc0, Ht0, Hcv0.
  destruct (run_moves moves _ _ _ Hwf0 Hr0 Hitem0)
    as (Hwf1 & Hr1 & Hitem1 & Hpan1 & Hi1 & Hc1 & Ht1 & Hcv1).
  change (run (move_events moves) (state (handleDrawingStart x0 y0 s)))
    with dragging in *.
  destruct (drag_move moves (canvasCoords s) (x0, y0)) as [p Hdrag].
  cbn [fst snd] in Hdrag.
  rewrite Hpan0, Hdrag in Hitem1, Hpan1. cbn [fst snd] in Hitem1, Hpan1.
  assert (Hdragging :
    items dragging = items s ∧ committed dragging = committed s
    ∧ canvasCoords dragging = panned (canvasCoords s) (x0, y0) moves
    ∧ currentTool dragging = currentTool s ∧ canvas dragging = canvas s).
  { split; [congruence|]. split; [congruence|]. split; [exact Hpan1|].
    split; congruence. }
  split; [exact Hdragging|].
  destruct Hdragging as (Hi & Hc & Hpan & Ht & Hcv).
  subst released. rewrite (handleDrawingEnd_state dragging _ _ Hr1 Hitem1).
  simpl. unfold committed in *. simpl.
  repeat split; first [assumption | intros ->; reflexivity].
Qed.

Lemma move_gesture_only_pans_witness :
  reachable (H := Sample.externals) (before_gesture "move")
  ∧ currentTool (before_gesture "move") = "move"
  ∧ let dragging :=
      run (H := Sample.externals)
        (DrawingStart 10 10 :: move_events [(12, 11); (20, 5)]%float)
        (before_gesture "move") in
    let released := state (handleDrawingEnd (H := Sample.externals) dragging) in
    canvasCoords released = mkPoint 13 (-1)
    ∧ committed released = [Some (WhiteboardCircle 5 5 10 Rough.noOptions)]
    ∧ currentDrawing released = None.
Proof.
  split; [eexists; reflexivity|]. split; [reflexivity|].
  destruct (move_gesture_only_pans (H := Sample.externals)
              (before_gesture "move") 10 10
              [(12, 11); (20, 5)]%float)
    as (_ & _ & Hc & Hpan & Hd & _); [eexists; reflexivity|reflexivity|].
  split; [exact Hpan|]. split; [exact Hc|exact Hd].
Defined.

(** A gesture with a tool that draws: start, moves ending at [(mx, my)],
    release.  The object committed is the draft as the moves left it. *)
Lemma drawing_gesture `{Externals} (s : Whiteboard) (sx sy mx my : float)
    (moves : list (float * float)) (item : WhiteboardItem) :
  wf s →
  state (handleDrawingStart sx sy s) = newDrawing item (set_currentDrawing None s) →
  kind (drag (canvasCoords s) item (moves ++ [(mx, my)])).1 ≠ "move" →
  let released :=
    run (DrawingStart sx sy :: move_events (moves ++ [(mx, my)]) ++ [DrawingEnd]) s in
  items released = items s ++ [length (heap s)]
  ∧ committed released
    = committed s ++ [Some (drag (canvasCoords s) item (moves ++ [(mx, my)])).1]
  ∧ currentDrawing released = None.
Proof.
  intros Hs Hstart Hkind released. subst released.
  change (DrawingStart sx sy :: move_events (moves ++ [(mx, my)]) ++ [DrawingEnd])
    with ([DrawingStart sx sy] ++ move_events (moves ++ [(mx, my)]) ++ [DrawingEnd]).
  rewrite !run_app.
  change (run [DrawingStart sx sy] s) with (state (handleDrawingStart sx sy s)).
  destruct (newDrawing_fields item s Hs)
    as (Hwf0 & Hr0 & Hitem0 & Hpan0 & Hi0 & Hc0 & _ & _).
  rewrite <- Hstart in Hwf0, Hr0, Hitem0, Hpan0, Hi0, Hc0.
  destruct (run_moves (moves ++ [(mx, my)]) _ _ _ Hwf0 Hr0 Hitem0)
    as (Hwf1 & Hr1 & Hitem1 & _ & Hi1 & Hc1 & _ & _).
  rewrite Hpan0 in Hitem1.
  set (t := run (move_events (moves ++ [(mx, my)])) _) in *.
  change (run [DrawingEnd] t) with (state (handleDrawingEnd t)).
  rewrite (handleDrawingEnd_state t _ _ Hr1 Hitem1).
  apply String.eqb_neq in Hkind. rewrite Hkind. cbn [negb].
  split; [simpl; rewrite Hi1, Hi0; reflexivity|].
  split; [|reflexivity].
  change (committed (set_items (items t ++ [length (heap s)]) t)
          = committed s
            ++ [Some (drag (canvasCoords s) item (moves ++ [(mx, my)])).1]).
  rewrite committed_push, Hitem1, Hc1, Hc0. reflexivity.
Qed.

(** C2: a completed rect or line gesture, from any state of a session:
    start at [(sx, sy)], any moves, a last move at [(mx, my)], release.
    One record is committed, behind the ones there were.  Its anchor is the
    start position minus the pan offset.  A rect has width
    [mx - anchorX - panX] and height [my - anchorY - panY]; a line ends at
    [(mx - panX, my - panY)]. *)
Theorem rect_line_gesture_geometry `{Externals} (s : Whiteboard)
    (sx sy mx my : float) (moves : list (float * float)) :
  reachable s →
  let pan := canvasCoords s in
  let anchorX := (sx - px pan)%float in
  let anchorY := (sy - py pan)%float in
  let released :=
    run (DrawingStart sx sy :: move_events (moves ++ [(mx, my)]) ++ [DrawingEnd]) s in
  (currentTool s = "rect" →
   committed released
   = committed s
     ++ [Some (WhiteboardRect anchorX anchorY
                 (mx - anchorX - px pan) (my - anchorY - py pan) Rough.noOptions)])
  ∧ (currentTool s = "line" →
     committed released
     = committed s
       ++ [Some (WhiteboardLine anchorX anchorY (mx - px pan) (my - py pan)
                   Rough.noOptions)]).
Proof.
  intros Hs pan anchorX anchorY released. apply reachable_wf in Hs.
  destruct (handleDrawingStart_tool s sx sy) as (Hrect & Hline & _).
  split; intros Htool.
  - destruct (drawing_gesture s sx sy mx my moves _ Hs (Hrect Htool)) as (_ & Hc & _).
    + rewrite drag_rect. discriminate.
    + rewrite drag_rect in Hc. exact Hc.
  - destruct (drawing_gesture s sx sy mx my moves _ Hs (Hline Htool)) as (_ & Hc & _).
    + rewrite drag_line. discriminate.
    + rewrite drag_line in Hc. exact Hc.
Qed.

Lemma rect_line_gesture_geometry_witness :
  reachable (H := Sample.externals) (before_gesture "rect")
  ∧ committed
      (run (H := Sample.externals)
         (DrawingStart 10 20 :: move_events ([(11, 21)] ++ [(40, 60)])%float
            ++ [DrawingEnd])
         (before_gesture "rect"))
    = [Some (WhiteboardCircle 5 5 10 Rough.noOptions);
       Some (WhiteboardRect 7 16 30 40 Rough.noOptions)].
Proof.
  split; [eexists; reflexivity|].
  apply (proj1 (rect_line_gesture_geometry (H := Sample.externals)
                  (before_gesture "rect") 10 20 40 60 [(11, 21)]%float
                  (ex_intro _ _ eq_refl))).
  reflexivity.
Defined.

Example line_gesture_value :
  committed
    (run (H := Sample.externals)
       [DrawingStart 10 20; DrawingMove 11 21; DrawingMove 40 60; DrawingEnd]
       (before_gesture "line"))
  = [Some (WhiteboardCircle 5 5 10 Rough.noOptions);
     Some (WhiteboardLine 7 16 37 56 Rough.noOptions)].
Proof. vm_compute. reflexivity. Qed.

(** *** Pointer-up and the active tool *)

(** C1, as stated, fails in the viewer: after a change of tool in the
    middle of a rect gesture the draft's kind is not the active tool, and
    [handleDrawingEnd] still pushes it onto [items]. *)
Lemma stale_draft_is_committed :
  currentTool tool_changed_mid_gesture = "circle"
  ∧ draft tool_changed_mid_gesture
    = Some (WhiteboardRect 10 20 30 40 Rough.noOptions)
  ∧ committed tool_changed_mid_gesture = []
  ∧ committed (state (handleDrawingEnd (H := Sample.externals)
                        tool_changed_mid_gesture))
    = [Some (WhiteboardRect 10 20 30 40 Rough.noOptions)].
Proof. vm_compute. repeat split. Qed.

(** C1, amended.  The viewer's [handleDrawingEnd] does not look at the
    active tool: whatever it is, a draft is pushed onto [items] unless its
    kind is ["move"], and the draft is cleared either way.  The rect tool's
    [handleDrawingEnd] does compare: on a draft whose kind is not its own
    name it returns without calling the whiteboard, which keeps the draft
    and gains no item. *)
Theorem draft_committed_by_kind `{Externals} {W : Type} `{ToolRect.SimpleWhiteboard W}
    (s : Whiteboard) (r : ref) (item : WhiteboardItem) :
  currentDrawing s = Some r → deref s r = Some item →
  let s' := state (handleDrawingEnd s) in
  currentDrawing s' = None
  ∧ (kind item = "move" → items s' = items s ∧ committed s' = committed s)
  ∧ (kind item ≠ "move" →
     items s' = items s ++ [r] ∧ committed s' = committed s ++ [Some item])
  ∧ (∀ (simpleWhiteboard : W) (currentDrawing : ToolRect.RectItem),
       ToolRect.getCurrentDrawing simpleWhiteboard = Some currentDrawing →
       ToolRect.kind currentDrawing ≠ ToolRect.getToolName →
       ToolRect.handleDrawingEnd (Some simpleWhiteboard) = Some simpleWhiteboard).
Proof.
  intros Hr Hitem s'. subst s'.
  rewrite (handleDrawingEnd_state s r item Hr Hitem).
  split; [reflexivity|]. split; [|split].
  - intros ->. split; reflexivity.
  - intros Hk. apply String.eqb_neq in Hk. rewrite Hk. cbn [negb].
    split; [reflexivity|].
    change (committed (set_items (items s ++ [r]) s) = committed s ++ [Some item]).
    rewrite committed_push, Hitem. reflexivity.
  - intros w d Hd Hk. unfold ToolRect.handleDrawingEnd. rewrite Hd.
    apply String.eqb_neq in Hk. rewrite Hk. reflexivity.
Qed.

Lemma draft_committed_by_kind_witness :
  currentDrawing tool_changed_mid_gesture = Some 0
  ∧ deref tool_changed_mid_gesture 0 = Some (WhiteboardRect 10 20 30 40 Rough.noOptions)
  ∧ currentDrawing (state (handleDrawingEnd (H := Sample.externals)
                             tool_changed_mid_gesture)) = None
  ∧ ToolRect.handleDrawingEnd (H := Sample.host) (Some (host_with "circle"))
    = Some (host_with "circle").
Proof.
  split; [reflexivity|]. split; [reflexivity|].
  destruct (draft_committed_by_kind (H := Sample.externals) (H0 := Sample.host)
              tool_changed_mid_gesture 0 _ eq_refl eq_refl)
    as (Hnone & _ & _ & Htool).
  split; [exact Hnone|].
  apply (Htool (host_with "circle") _ eq_refl). discriminate.
Defined.

(** ** Properties of the rect tool *)

(** C8, as stated, fails on a rect item whose options give a stroke width
    of zero: [0 || 1] is [1], so the box is padded by one half on each
    side although the item's stroke width is zero. *)
Lemma zero_strokeWidth_padded_as_one :
  given_strokeWidth hairline = 0%float
  ∧ padded hairline (given_strokeWidth hairline)
    = ToolRect.mkBoundingRect 10 10 20 20
  ∧ ToolRect.getBoundingRect hairline
    = Some (ToolRect.mkBoundingRect 9.5 9.5 21 21)
  ∧ ToolRect.getBoundingRect hairline
    ≠ Some (padded hairline (given_strokeWidth hairline)).
Proof.
  split; [reflexivity|]. split; [reflexivity|]. split; [reflexivity|].
  intros Heq. vm_compute in Heq. discriminate Heq.
Qed.

(** C8, amended: [getBoundingRect] pads the item's geometry by half of a
    stroke width on each side, which is the one its options give when that
    is a number other than zero and NaN, and 1 when they give none, zero
    or NaN. *)
Theorem getBoundingRect_pads (item : ToolRect.RectItem) :
  (Rough.strokeWidth (ToolRect.options item) = None →
   ToolRect.getBoundingRect item = Some (padded item 1))
  ∧ (∀ w, Rough.strokeWidth (ToolRect.options item) = Some w →
          PrimFloat.eqb w 0 = false → PrimFloat.is_nan w = false →
          ToolRect.getBoundingRect item = Some (padded item w))
  ∧ (∀ w, Rough.strokeWidth (ToolRect.options item) = Some w →
          PrimFloat.eqb w 0 = true ∨ PrimFloat.is_nan w = true →
          ToolRect.getBoundingRect item = Some (padded item 1)).
Proof.
  unfold ToolRect.getBoundingRect, padded, number_or, truthy.
  split; [|split].
  - intros ->. reflexivity.
  - intros w -> Hzero Hnan. rewrite Hzero, Hnan. reflexivity.
  - intros w -> [Hzero|Hnan].
    + rewrite Hzero. reflexivity.
    + rewrite Hnan, andb_false_r. reflexivity.
Qed.

Lemma getBoundingRect_pads_witness :
  ToolRect.getBoundingRect hairline = Some (padded hairline 1)
  ∧ ToolRect.getBoundingRect
      (ToolRect.mkRectItem "rect" "item-3" 10 10 20 20
         (Rough.mkOptions None (Some 4%float) None))
    = Some (ToolRect.mkBoundingRect 8 8 24 24).
Proof.
  split.
  - apply (proj2 (proj2 (getBoundingRect_pads hairline)) 0%float eq_refl).
    left. reflexivity.
  - apply (proj1 (proj2 (getBoundingRect_pads
                           (ToolRect.mkRectItem "rect" "item-3" 10 10 20 20
                              (Rough.mkOptions None (Some 4%float) None))))
             4%float eq_refl); reflexivity.
Defined.

(** The rect tool's [handleDrawingMove] on a draft of its own kind hands
    the whiteboard a copy of the draft with the same delta arithmetic as
    the viewer: width [x - currentX - canvasX], height
    [y - currentY - canvasY]. *)
Lemma rect_tool_move_geometry {W : Type} `{ToolRect.SimpleWhiteboard W}
    (simpleWhiteboard : W) (rectItem : ToolRect.RectItem) (x y : float) :
  ToolRect.getCurrentDrawing simpleWhiteboard = Some rectItem →
  ToolRect.kind rectItem = "rect" →
  let canvas := ToolRect.getCanvasCoords simpleWhiteboard in
  ToolRect.handleDrawingMove x y (Some simpleWhiteboard)
  = Some (ToolRect.setCurrentDrawing
            (Some (ToolRect.mkRectItem "rect" (ToolRect.id rectItem)
                     (ToolRect.x rectItem) (ToolRect.y rectItem)
                     (x - ToolRect.x rectItem - px canvas)
                     (y - ToolRect.y rectItem - py canvas)
                     (ToolRect.options rectItem)))
            simpleWhiteboard).
Proof.
  intros Hd Hk. unfold ToolRect.handleDrawingMove. rewrite Hd, Hk. reflexivity.
Qed.

Example rect_tool_gesture :
  let started :=
    ToolRect.handleDrawingStart (H := Sample.host) ToolRect.newTool "item-2" 10 20
      (Some (Sample.mkHost [] None (mkPoint 3 4) None)) in
  started = Some (host_with "rect")
  ∧ Sample.hostItems
      <$> ToolRect.handleDrawingEnd (H := Sample.host)
            (ToolRect.handleDrawingMove (H := Sample.host) 40 60 started)
    = Some [ToolRect.mkRectItem "rect" "item-2" 7 16 30 40
              (Rough.mkOptions (Some "#000000") (Some 2%float) (Some "transparent"))].
Proof. vm_compute. split; reflexivity. Qed.

(** ** Pen outlines *)




(** From four points on, a point without coordinates makes the function
    throw: the guard is what keeps short lists from that. *)
Example malformed_outline_throws :
  getSvgPathFromStroke (H := Sample.externals) [[]; [1; 1]; [2; 2]; [3; 3]]%float true
  = Throw "TypeError".
Proof. reflexivity. Qed.

(** ** Further properties of the viewer *)

(** *** What sessions keep *)

Section Sessions.
Context `{Externals}.

(** One event commits nothing, or commits the draft, which is no pan
    record. *)
Lemma step_commits_draft (e : Event) (s : Whiteboard) :
  wf s →
  (items (step s e) = items s ∧ committed (step s e) = committed s)
  ∨ (∃ r item, currentDrawing s = Some r ∧ kind item ≠ "move"
               ∧ items (step s e) = items s ++ [r]
               ∧ committed (step s e) = committed s ++ [Some item]).
Proof.
  intros Hwf.
  assert (Hredraw : items (step s e) = items s ∧ heap (step s e) = heap s →
                    items (step s e) = items s ∧ committed (step s e) = committed s).
  { intros [Hi Hh]. split; [exact Hi|]. unfold committed, deref. rewrite Hi, Hh.
    reflexivity. }
  destruct e as [found menu| | | | | | |];
    try (left; apply Hredraw, redraw_items; exact I).
  - left. apply handleDrawingStart_items, Hwf.
  - left. apply handleDrawingMove_items, Hwf.
  - destruct (handleDrawingEnd_items s Hwf)
      as [Hsame|(r & item & Hr & _ & Hk & Hi & Hc)].
    + left. exact Hsame.
    + right. exists r, item. repeat split; assumption.
Qed.

Lemma run_snoc (es : list Event) (e : Event) (s : Whiteboard) :
  run (es ++ [e]) s = step (run es s) e.
Proof. unfold run. rewrite foldl_app. reflexivity. Qed.

End Sessions.

(** X1: in a session every committed entry denotes an object, and none is
    a ["move"] record: a pan gesture never ends up among the shapes. *)
Theorem committed_items_are_shapes `{Externals} (s : Whiteboard) :
  reachable s → Forall is_shape (committed s).
Proof.
  intros [es ->]. induction es as [|e es IH] using rev_ind.
  - constructor.
  - rewrite run_snoc.
    destruct (step_commits_draft e (run es initial) (wf_run es initial wf_initial))
      as [[_ ->]|(r & item & _ & Hk & _ & ->)]; [exact IH|].
    apply Forall_app. split; [exact IH|].
    constructor; [|constructor]. exists item. split; [reflexivity|exact Hk].
Qed.

Lemma committed_items_are_shapes_witness :
  reachable (H := Sample.externals) rect_in_progress
  ∧ Forall is_shape (committed rect_in_progress).
Proof.
  split; [eexists; reflexivity|].
  apply (committed_items_are_shapes (H := Sample.externals)). eexists; reflexivity.
Defined.

(** X2: in a session no object is committed twice, and the draft is never
    one of the committed objects: what a move writes into the draft cannot
    show up in an item committed earlier. *)
Theorem no_object_committed_twice `{Externals} (s : Whiteboard) :
  reachable s →
  NoDup (items s) ∧ ∀ r, currentDrawing s = Some r → r ∉ items s.
Proof.
  intros [es ->]. split.
  - induction es as [|e es IH] using rev_ind; [constructor|].
    rewrite run_snoc.
    pose proof (wf_run es initial wf_initial) as Hwf.
    destruct (step_commits_draft e (run es initial) Hwf)
      as [[-> _]|(r & item & Hr & _ & -> & _)]; [exact IH|].
    apply NoDup_app. split; [exact IH|]. split.
    + intros r' Hin Hr'. apply list_elem_of_singleton in Hr'. subst r'.
      apply (wf_draft _ Hwf r Hr). exact Hin.
    + apply NoDup_singleton.
  - intros r Hr. apply (wf_draft _ (wf_run es initial wf_initial) r Hr).
Qed.

Lemma no_object_committed_twice_witness :
  reachable (H := Sample.externals) rect_in_progress
  ∧ NoDup (items rect_in_progress)
  ∧ ∀ r, currentDrawing rect_in_progress = Some r → r ∉ items rect_in_progress.
Proof.
  split; [eexists; reflexivity|].
  apply (no_object_committed_twice (H := Sample.externals)). eexists; reflexivity.
Defined.

(** *** The active tool matters at pointer-down only *)

Section ToolChanges.
Context `{Externals}.
#[local] Arguments draw : simpl never.

(** Apart from [handleDrawingStart] and [handleToolChange] no method reads
    or writes the tool. *)
Lemma step_tool_commute (e : Event) (t : string) (s : Whiteboard) :
  is_start e = false → is_tool_change e = false →
  step (set_currentTool t s) e = set_currentTool t (step s e).
Proof.
  intros Hstart Htool. unfold step.
  destruct s as [hp cv its pan d tl].
  destruct e as [found menu|w h| |x y|x y| | |tool]; try discriminate; cbn [handle].
  - unfold firstUpdated. destruct found as [c|]; [|reflexivity].
    destruct menu; [|reflexivity].
    unfold handleResize. cbn. rewrite !state_draw. reflexivity.
  - unfold handleResize, relayout. cbn. destruct cv; [|reflexivity].
    cbn. rewrite !state_draw. reflexivity.
  - unfold handleVisibilityChange. cbn. destruct cv; [|reflexivity].
    rewrite !state_draw. reflexivity.
  - unfold handleDrawingMove, deref. cbn. destruct d as [r|]; [|reflexivity].
    destruct (hp !! r) as [item|]; [|reflexivity].
    rewrite !state_draw. destruct item; reflexivity.
  - unfold handleDrawingEnd, deref. cbn. destruct d as [r|]; [|reflexivity].
    destruct (hp !! r) as [item|]; [|reflexivity].
    rewrite !state_draw. destruct (negb _); reflexivity.
  - unfold handleTouchCancel. cbn. destruct d; [|reflexivity].
    rewrite !state_draw. reflexivity.
Qed.

Lemma run_tool_commute (es : list Event) :
  forallb (λ e, negb (is_start e)) es = true →
  ∀ (t : string) (s : Whiteboard),
  ∃ t', run es (set_currentTool t s)
        = set_currentTool t' (run (without_tool_changes es) s).
Proof.
  induction es as [|e es IH]; intros Hes t s; simpl in *.
  - exists t. reflexivity.
  - apply andb_prop in Hes. destruct Hes as [He Hes].
    apply negb_true_iff in He.
    destruct (is_tool_change e) eqn:Htool; simpl.
    + destruct e; try discriminate. apply (IH Hes tool s).
    + rewrite (step_tool_commute e t s He Htool). apply (IH Hes t (step s e)).
Qed.

End ToolChanges.

(** X3: between two pointer-downs the tool buttons have no effect on the
    board: a run without [handleDrawingStart] ends with the same items, the
    same objects, the same draft and the same pan offset as the run with
    its tool changes left out.  The kind of a gesture is fixed when it
    starts. *)
Theorem tool_changes_do_not_affect_gesture `{Externals} (es : list Event)
    (s : Whiteboard) :
  forallb (λ e, negb (is_start e)) es = true →
  let changed := run es s in
  let plain := run (without_tool_changes es) s in
  items changed = items plain
  ∧ committed changed = committed plain
  ∧ draft changed = draft plain
  ∧ canvasCoords changed = canvasCoords plain
  ∧ canvas changed = canvas plain.
Proof.
  intros Hes changed plain. subst changed plain.
  destruct (run_tool_commute es Hes (currentTool s) s) as [t' Hrun].
  replace (set_currentTool (currentTool s) s) with s in Hrun by (destruct s; reflexivity).
  rewrite Hrun. repeat split; reflexivity.
Qed.

Lemma tool_changes_do_not_affect_gesture_witness :
  let es := [DrawingMove 40 60; ToolChange "circle"; DrawingMove 50 70;
             ToolChange "pen"; DrawingEnd] in
  forallb (λ e, negb (is_start e)) es = true
  ∧ committed (run (H := Sample.externals) es rect_in_progress)
    = committed (run (H := Sample.externals)
                   [DrawingMove 40 60; DrawingMove 50 70; DrawingEnd]
                   rect_in_progress).
Proof.
  split; [reflexivity|].
  destruct (tool_changes_do_not_affect_gesture (H := Sample.externals)
              [DrawingMove 40 60; ToolChange "circle"; DrawingMove 50 70;
               ToolChange "pen"; DrawingEnd] rect_in_progress eq_refl)
    as (_ & Hc & _).
  exact Hc.
Defined.

(** *** Panning and starting *)

(** X4: only a ["move"] draft pans.  Whatever the event, when the draft is
    not a pan record (or there is none) the pan offset stays. *)
Theorem only_move_drafts_pan `{Externals} (e : Event) (s : Whiteboard) :
  (∀ x y, draft s ≠ Some (WhiteboardMove x y)) →
  canvasCoords (state (handle e s)) = canvasCoords s.
Proof.
  intros Hdraft. destruct s as [hp cv its pan d tl].
  destruct e as [found menu|w h| |x y|x y| | |tool]; cbn [handle].
  - unfold firstUpdated. destruct found as [c|]; [|reflexivity].
    destruct menu; [|reflexivity].
    unfold handleResize. cbn [canvas set_canvas]. rewrite state_draw. reflexivity.
  - unfold handleResize, relayout. cbn [canvas]. destruct cv; [|reflexivity].
    cbn [canvas set_canvas]. rewrite state_draw. reflexivity.
  - unfold handleVisibilityChange. cbn [canvas]. destruct cv; [|reflexivity].
    rewrite state_draw. reflexivity.
  - unfold handleDrawingStart. cbn. repeat case_match; reflexivity.
  - unfold handleDrawingMove, deref. cbn [currentDrawing heap].
    destruct d as [r|]; [|reflexivity].
    destruct (hp !! r) as [item|] eqn:Hitem; [|reflexivity].
    rewrite state_draw. destruct item; try reflexivity.
    exfalso. apply (Hdraft x0 y0). unfold draft, deref. cbn. exact Hitem.
  - unfold handleDrawingEnd, deref. cbn [currentDrawing heap].
    destruct d as [r|]; [|reflexivity].
    destruct (hp !! r) as [item|]; [|reflexivity].
    rewrite state_draw. destruct (negb _); reflexivity.
  - unfold handleTouchCancel. cbn [currentDrawing]. destruct d; [|reflexivity].
    rewrite state_draw. reflexivity.
  - reflexivity.
Qed.

Lemma only_move_drafts_pan_witness :
  (∀ x y, draft rect_in_progress ≠ Some (WhiteboardMove x y))
  ∧ canvasCoords (state (handle (H := Sample.externals) (DrawingMove 90 90)
                           rect_in_progress))
    = mkPoint 3 4.
Proof.
  assert (Hdraft : ∀ x y, draft rect_in_progress ≠ Some (WhiteboardMove x y)).
  { intros x y Heq. vm_compute in Heq. discriminate Heq. }
  split; [exact Hdraft|].
  apply (only_move_drafts_pan (H := Sample.externals) (DrawingMove 90 90)
           rect_in_progress Hdraft).
Defined.

(** X5: [handleDrawingStart] drops whatever draft there was and reads the
    tool: afterwards there is a draft exactly when the tool is one of
    ["rect"], ["circle"], ["line"], ["pen"] and ["move"], and then its kind
    is the tool and it is the new record of that kind at the pointer
    position (of no size, without options), whatever the draft before.
    Items, pan offset and tool are untouched, nothing is painted or
    thrown. *)
Theorem start_draft_matches_tool `{Externals} (x y : float) (s : Whiteboard) :
  let s' := state (handleDrawingStart x y s) in
  match draft s' with
  | Some item => kind item = currentTool s
  | None => currentTool s ∉ drawing_tools
  end
  ∧ items s' = items s ∧ canvasCoords s' = canvasCoords s
  ∧ currentTool s' = currentTool s
  ∧ painted (handleDrawingStart x y s) = []
  ∧ thrown (handleDrawingStart x y s) = None
  ∧ ∀ item, draft s' = Some item →
      item ∈ [WhiteboardRect (x - px (canvasCoords s)) (y - py (canvasCoords s)) 0 0
                Rough.noOptions;
              WhiteboardCircle (x - px (canvasCoords s)) (y - py (canvasCoords s)) 0
                Rough.noOptions;
              WhiteboardLine (x - px (canvasCoords s)) (y - py (canvasCoords s))
                (x - px (canvasCoords s)) (y - py (canvasCoords s)) Rough.noOptions;
              WhiteboardPen [mkPoint (x - px (canvasCoords s))
                                     (y - py (canvasCoords s))]
                (mkPenOptions None);
              WhiteboardMove x y].
Proof.
  assert (Hnew : ∀ item t, draft (newDrawing item t) = Some item).
  { intros item t. unfold draft, deref. simpl. apply list_lookup_middle. reflexivity. }
  destruct s as [hp cv its pan d tl]. unfold handleDrawingStart. cbn -[draft newDrawing].
  destruct (String.eqb tl "rect") eqn:Hrect.
  { rewrite Hnew. apply String.eqb_eq in Hrect. split; [symmetry; exact Hrect|].
    repeat (split; [reflexivity|]). intros item [= <-]. repeat constructor. }
  destruct (String.eqb tl "circle") eqn:Hcircle.
  { rewrite Hnew. apply String.eqb_eq in Hcircle. split; [symmetry; exact Hcircle|].
    repeat (split; [reflexivity|]). intros item [= <-]. repeat constructor. }
  destruct (String.eqb tl "line") eqn:Hline.
  { rewrite Hnew. apply String.eqb_eq in Hline. split; [symmetry; exact Hline|].
    repeat (split; [reflexivity|]). intros item [= <-]. repeat constructor. }
  destruct (String.eqb tl "pen") eqn:Hpen.
  { rewrite Hnew. apply String.eqb_eq in Hpen. split; [symmetry; exact Hpen|].
    repeat (split; [reflexivity|]). intros item [= <-]. repeat constructor. }
  destruct (String.eqb tl "move") eqn:Hmove.
  { rewrite Hnew. apply String.eqb_eq in Hmove. split; [symmetry; exact Hmove|].
    repeat (split; [reflexivity|]). intros item [= <-]. repeat constructor. }
  apply String.eqb_neq in Hrect, Hcircle, Hline, Hpen, Hmove.
  split.
  { cbn. unfold drawing_tools. rewrite !elem_of_cons, elem_of_nil. tauto. }
  repeat (split; [reflexivity|]). intros item Hitem. cbn in Hitem. discriminate Hitem.
Qed.

(** *** More gestures *)

Section MoreGestures.
Context `{Externals}.

Lemma drag_kind (moves : list (float * float)) :
  ∀ (pan : Point) (item : WhiteboardItem),
  kind (drag pan item moves).1 = kind item.
Proof.
  induction moves as [|p moves IH]; intros pan item; simpl; [reflexivity|].
  rewrite IH. destruct item; reflexivity.
Qed.

Lemma drag_pan (moves : list (float * float)) :
  ∀ (pan : Point) (item : WhiteboardItem),
  kind item ≠ "move" → (drag pan item moves).2 = pan.
Proof.
  induction moves as [|p moves IH]; intros pan item Hk; simpl; [reflexivity|].
  destruct item; try (apply IH; discriminate). contradiction Hk. reflexivity.
Qed.

Lemma drag_pen (moves : list (float * float)) :
  ∀ (pan : Point) (path : list Point) (o : PenOptions),
  drag pan (WhiteboardPen path o) moves
  = (WhiteboardPen
       (path ++ ((λ p, mkPoint (p.1 - px pan) (p.2 - py pan)) <$> moves)) o, pan).
Proof.
  induction moves as [|p moves IH]; intros pan path o; simpl.
  - rewrite app_nil_r. reflexivity.
  - rewrite IH, <- app_assoc. reflexivity.
Qed.

Lemma drag_circle (moves : list (float * float)) :
  ∀ (pan : Point) (ax ay d mx my : float) (o : RoughCanvasOptions),
  drag pan (WhiteboardCircle ax ay d o) (moves ++ [(mx, my)])
  = (WhiteboardCircle ax ay (distance ax ay (mx - px pan) (my - py pan) * 2) o, pan).
Proof.
  induction moves as [|p moves IH]; intros; simpl; [reflexivity|apply IH].
Qed.

Lemma handleDrawingStart_pen_circle (s : Whiteboard) (x y : float) :
  let pan := canvasCoords s in
  let begun item := state (handleDrawingStart x y s)
                    = newDrawing item (set_currentDrawing None s) in
  (currentTool s = "pen" →
   begun (WhiteboardPen [mkPoint (x - px pan) (y - py pan)] (mkPenOptions None)))
  ∧ (currentTool s = "circle" →
     begun (WhiteboardCircle (x - px pan) (y - py pan) 0 Rough.noOptions)).
Proof.
  unfold handleDrawingStart. simpl. split; intros ->; reflexivity.
Qed.

(** A gesture with a tool that draws, with any number of moves. *)
Lemma gesture_commits (s : Whiteboard) (sx sy : float)
    (moves : list (float * float)) (item : WhiteboardItem) :
  wf s →
  state (handleDrawingStart sx sy s) = newDrawing item (set_currentDrawing None s) →
  kind item ≠ "move" →
  let released := run (DrawingStart sx sy :: move_events moves ++ [DrawingEnd]) s in
  wf released
  ∧ items released = items s ++ [length (heap s)]
  ∧ committed released = committed s ++ [Some (drag (canvasCoords s) item moves).1]
  ∧ currentDrawing released = None
  ∧ canvasCoords released = canvasCoords s
  ∧ currentTool released = currentTool s.
Proof.
  intros Hs Hstart Hkind released. subst released.
  change (DrawingStart sx sy :: move_events moves ++ [DrawingEnd])
    with ([DrawingStart sx sy] ++ move_events moves ++ [DrawingEnd]).
  rewrite !run_app.
  change (run [DrawingStart sx sy] s) with (state (handleDrawingStart sx sy s)).
  destruct (newDrawing_fields item s Hs)
    as (Hwf0 & Hr0 & Hitem0 & Hpan0 & Hi0 & Hc0 & Ht0 & _).
  rewrite <- Hstart in Hwf0, Hr0, Hitem0, Hpan0, Hi0, Hc0, Ht0.
  destruct (run_moves moves _ _ _ Hwf0 Hr0 Hitem0)
    as (Hwf1 & Hr1 & Hitem1 & Hpan1 & Hi1 & Hc1 & Ht1 & _).
  rewrite Hpan0 in Hitem1, Hpan1. rewrite (drag_pan moves _ _ Hkind) in Hpan1.
  set (t := run (move_events moves) _) in *.
  change (run [DrawingEnd] t) with (step t DrawingEnd).
  split; [apply wf_step, Hwf1|].
  unfold step. cbn [handle].
  rewrite (handleDrawingEnd_state t _ _ Hr1 Hitem1).
  rewrite <- (drag_kind moves (canvasCoords s) item) in Hkind.
  apply String.eqb_neq in Hkind. rewrite Hkind. cbn [negb].
  split; [simpl; rewrite Hi1, Hi0; reflexivity|].
  split; [|split; [reflexivity|split; [exact Hpan1|simpl; congruence]]].
  change (committed (set_items (items t ++ [length (heap s)]) t)
          = committed s ++ [Some (drag (canvasCoords s) item moves).1]).
  rewrite committed_push, Hitem1, Hc1, Hc0. reflexivity.
Qed.

End MoreGestures.

(** X6: a completed pen gesture, from any state of a session, commits one
    stroke behind the items there were: its path is the start position
    followed by every move position, each minus the pan offset, in order,
    so a click without a move commits a stroke of one point. *)
Theorem pen_gesture_path `{Externals} (s : Whiteboard) (sx sy : float)
    (moves : list (float * float)) :
  reachable s → currentTool s = "pen" →
  committed (run (DrawingStart sx sy :: move_events moves ++ [DrawingEnd]) s)
  = committed s
    ++ [Some (WhiteboardPen (pen_path (canvasCoords s) sx sy moves)
                (mkPenOptions None))].
Proof.
  intros Hs Htool. apply reachable_wf in Hs.
  destruct (handleDrawingStart_pen_circle s sx sy) as [Hpen _].
  destruct (gesture_commits s sx sy moves _ Hs (Hpen Htool)) as (_ & _ & Hc & _);
    [discriminate|].
  rewrite drag_pen in Hc. exact Hc.
Qed.

Lemma pen_gesture_path_witness :
  reachable (H := Sample.externals) (before_gesture "pen")
  ∧ currentTool (before_gesture "pen") = "pen"
  ∧ committed
      (run (H := Sample.externals)
         (DrawingStart 10 20 :: move_events [(11, 22); (13, 25)]%float ++ [DrawingEnd])
         (before_gesture "pen"))
    = [Some (WhiteboardCircle 5 5 10 Rough.noOptions);
       Some (WhiteboardPen [mkPoint 7 16; mkPoint 8 18; mkPoint 10 21]
               (mkPenOptions None))].
Proof.
  split; [eexists; reflexivity|]. split; [reflexivity|].
  apply (pen_gesture_path (H := Sample.externals) (before_gesture "pen") 10 20
           [(11, 22); (13, 25)]%float (ex_intro _ _ eq_refl) eq_refl).
Defined.

(** X7: a completed circle gesture, from any state of a session, commits
    one circle behind the items there were: centred at the start position
    minus the pan offset, with twice the distance from there to the last
    move position minus the pan offset as diameter. *)
Theorem circle_gesture_geometry `{Externals} (s : Whiteboard)
    (sx sy mx my : float) (moves : list (float * float)) :
  reachable s → currentTool s = "circle" →
  let pan := canvasCoords s in
  let centerX := (sx - px pan)%float in
  let centerY := (sy - py pan)%float in
  committed
    (run (DrawingStart sx sy :: move_events (moves ++ [(mx, my)]) ++ [DrawingEnd]) s)
  = committed s
    ++ [Some (WhiteboardCircle centerX centerY
                (distance centerX centerY (mx - px pan) (my - py pan) * 2)
                Rough.noOptions)].
Proof.
  intros Hs Htool pan centerX centerY. apply reachable_wf in Hs.
  destruct (handleDrawingStart_pen_circle s sx sy) as [_ Hcircle].
  destruct (gesture_commits s sx sy (moves ++ [(mx, my)]) _ Hs (Hcircle Htool))
    as (_ & _ & Hc & _); [discriminate|].
  rewrite drag_circle in Hc. exact Hc.
Qed.

Lemma circle_gesture_geometry_witness :
  reachable (H := Sample.externals) (before_gesture "circle")
  ∧ currentTool (before_gesture "circle") = "circle"
  ∧ committed
      (run (H := Sample.externals)
         (DrawingStart 13 24 :: move_events ([(14, 25)] ++ [(16, 28)])%float
            ++ [DrawingEnd])
         (before_gesture "circle"))
    = [Some (WhiteboardCircle 5 5 10 Rough.noOptions);
       Some (WhiteboardCircle 10 20 10 Rough.noOptions)].
Proof.
  split; [eexists; reflexivity|]. split; [reflexivity|].
  apply (circle_gesture_geometry (H := Sample.externals) (before_gesture "circle")
           13 24 16 28 [(14, 25)]%float (ex_intro _ _ eq_refl) eq_refl).
Defined.

(** X8: a gesture that never got its pointer-up (the pointer left the
    canvas) is dropped by the next pointer-down: with the rect tool, start,
    moves, start again, moves, release commits one rect only, the one of
    the second start. *)
Theorem restart_discards_first_draft `{Externals} (s : Whiteboard)
    (ax ay sx sy mx my : float) (first second : list (float * float)) :
  reachable s → currentTool s = "rect" →
  let pan := canvasCoords s in
  let anchorX := (sx - px pan)%float in
  let anchorY := (sy - py pan)%float in
  committed
    (run ((DrawingStart ax ay :: move_events first)
          ++ DrawingStart sx sy :: move_events (second ++ [(mx, my)]) ++ [DrawingEnd])
         s)
  = committed s
    ++ [Some (WhiteboardRect anchorX anchorY
                (mx - anchorX - px pan) (my - anchorY - py pan) Rough.noOptions)].
Proof.
  intros Hs Htool pan anchorX anchorY. apply reachable_wf in Hs.
  rewrite run_app.
  set (t := run (DrawingStart ax ay :: move_events first) s).
  destruct (handleDrawingStart_tool s ax ay) as (Hstart & _ & _).
  specialize (Hstart Htool).
  destruct (newDrawing_fields
              (WhiteboardRect (ax - px (canvasCoords s)) (ay - py (canvasCoords s))
                 0 0 Rough.noOptions) s Hs)
    as (Hwf0 & Hr0 & Hitem0 & Hpan0 & _ & Hc0 & Ht0 & _).
  rewrite <- Hstart in Hwf0, Hr0, Hitem0, Hpan0, Hc0, Ht0.
  destruct (run_moves first _ _ _ Hwf0 Hr0 Hitem0)
    as (Hwf1 & _ & _ & Hpan1 & _ & Hc1 & Ht1 & _).
  change (run (move_events first) (state (handleDrawingStart ax ay s))) with t in *.
  rewrite drag_pan in Hpan1 by discriminate.
  assert (Hpan : canvasCoords t = canvasCoords s) by congruence.
  assert (Htool' : currentTool t = "rect") by congruence.
  destruct (handleDrawingStart_tool t sx sy) as (Hrect & _ & _).
  destruct (drawing_gesture t sx sy mx my second _ Hwf1 (Hrect Htool')) as (_ & Hc & _).
  - rewrite drag_rect. discriminate.
  - rewrite drag_rect, Hpan in Hc. rewrite Hc, Hc1, Hc0. reflexivity.
Qed.

Lemma restart_discards_first_draft_witness :
  reachable (H := Sample.externals) (before_gesture "rect")
  ∧ currentTool (before_gesture "rect") = "rect"
  ∧ committed
      (run (H := Sample.externals)
         ((DrawingStart 1 1 :: move_events [(2, 2)]%float)
          ++ DrawingStart 10 20 :: move_events ([] ++ [(40, 60)])%float
             ++ [DrawingEnd])
         (before_gesture "rect"))
    = [Some (WhiteboardCircle 5 5 10 Rough.noOptions);
       Some (WhiteboardRect 7 16 30 40 Rough.noOptions)].
Proof.
  split; [eexists; reflexivity|]. split; [reflexivity|].
  apply (restart_discards_first_draft (H := Sample.externals) (before_gesture "rect")
           1 1 10 20 40 60 [(2, 2)]%float [] (ex_intro _ _ eq_refl) eq_refl).
Defined.

(** X9: a second pointer-up, or a pointer-up after a touch cancel, does
    nothing: in a session [handleDrawingEnd] after [handleDrawingEnd]
    leaves the fields as the first one did, and after [handleTouchCancel]
    as the cancel did, so no draft is committed twice and a cancelled one
    never. *)
Theorem pointer_up_once `{Externals} (s : Whiteboard) :
  reachable s →
  state (handleDrawingEnd (state (handleDrawingEnd s))) = state (handleDrawingEnd s)
  ∧ state (handleDrawingEnd (state (handleTouchCancel s)))
    = state (handleTouchCancel s).
Proof.
  intros Hs. apply reachable_wf in Hs.
  assert (Hquiet : ∀ t, currentDrawing t = None → state (handleDrawingEnd t) = t).
  { intros t Ht. unfold handleDrawingEnd. rewrite Ht. reflexivity. }
  split; apply Hquiet.
  - destruct (currentDrawing s) as [r|] eqn:Hr.
    + destruct (draft_valid s r Hs Hr) as [item Hitem].
      rewrite (handleDrawingEnd_state s r item Hr Hitem). reflexivity.
    + unfold handleDrawingEnd. rewrite Hr. exact Hr.
  - unfold handleTouchCancel. destruct (currentDrawing s) eqn:Hr.
    + rewrite state_draw. reflexivity.
    + exact Hr.
Qed.

Lemma rect_in_progress_reachable :
  reachable (H := Sample.externals) rect_in_progress.
Proof. eexists; reflexivity. Qed.

Lemma pointer_up_once_witness :
  reachable (H := Sample.externals) rect_in_progress
  ∧ items (state (handleDrawingEnd (H := Sample.externals)
                    (state (handleDrawingEnd (H := Sample.externals)
                              rect_in_progress))))
    = [0; 2]
  ∧ items (state (handleDrawingEnd (H := Sample.externals)
                    (state (handleTouchCancel (H := Sample.externals)
                              rect_in_progress))))
    = [0].
Proof.
  split; [exact rect_in_progress_reachable|]. split.
  - refine (eq_trans
              (f_equal items
                 (proj1 (pointer_up_once (H := Sample.externals) rect_in_progress
                           rect_in_progress_reachable))) _).
    vm_compute. reflexivity.
  - refine (eq_trans
              (f_equal items
                 (proj2 (pointer_up_once (H := Sample.externals) rect_in_progress
                           rect_in_progress_reachable))) _).
    vm_compute. reflexivity.
Defined.

Lemma committed_prefix_run_witness :
  reachable (H := Sample.externals) rect_in_progress
  ∧ committed rect_in_progress
    `prefix_of` committed
                  (run (H := Sample.externals)
                     [DrawingEnd; ToolChange "pen"; DrawingStart 1 1; DrawingEnd]
                     rect_in_progress).
Proof.
  split; [eexists; reflexivity|].
  apply (committed_prefix_run (H := Sample.externals)). eexists; reflexivity.
Defined.

(** ** Further properties of the path outline *)

Section Outline.
Context `{Externals}.

(** The loop reads [points[i]] and [points[i + 1]] inside the array only,
    where a missing coordinate is a NaN and no exception. *)
Lemma midpoints_ok (points : list (list float)) (range : list nat) :
  (∀ i, i ∈ range → i + 1 < length points) →
  ∀ result, ∃ path, midpoints points range result = Ok path.
Proof.
  induction range as [|i range IH]; intros Hrange result; simpl.
  - eauto.
  - assert (Hi : i + 1 < length points) by (apply Hrange; left).
    destruct (lookup_lt_is_Some_2 points i) as [a Ha]; [lia|].
    destruct (lookup_lt_is_Some_2 points (i + 1)) as [b Hb]; [lia|].
    rewrite Ha, Hb. simpl. apply IH. intros j Hj. apply Hrange. right. exact Hj.
Qed.

(** From the third point on the loop reads a point through its first two
    coordinates as numbers only. *)
Lemma midpoints_pad (points points' : list (list float)) (range : list nat) :
  (∀ i, i ∈ range →
        points' !! i = with_NaN <$> points !! i
        ∧ points' !! (i + 1) = with_NaN <$> points !! (i + 1)) →
  ∀ result, midpoints points' range result = midpoints points range result.
Proof.
  induction range as [|i range IH]; intros Hrange result; simpl; [reflexivity|].
  destruct (Hrange i) as [Ha Hb]; [left|]. rewrite Ha, Hb.
  destruct (points !! i) as [a|]; simpl; [|reflexivity].
  destruct (points !! (i + 1)) as [b|]; simpl; [|reflexivity].
  apply IH. intros j Hj. apply Hrange. right. exact Hj.
Qed.

End Outline.

(** From four points on, only the first two points can make it throw. *)
Lemma getSvgPathFromStroke_throws_cases `{Externals} (points : list (list float))
    (closed : bool) :
  4 ≤ length points →
  (Forall (λ p, 2 ≤ length p) (take 2 points) →
   ∃ path, getSvgPathFromStroke points closed = Ok path)
  ∧ (¬ Forall (λ p, 2 ≤ length p) (take 2 points) →
     getSvgPathFromStroke points closed = Throw "TypeError").
Proof.
  intros Hlen.
  destruct points as [|p0 [|p1 [|p2 [|p3 rest]]]]; simpl in Hlen; try lia.
  assert (Hloop : ∀ result,
            ∃ path, midpoints (p0 :: p1 :: p2 :: p3 :: rest)
                      (seq 2 (length (p0 :: p1 :: p2 :: p3 :: rest) - 1 - 2)) result
                    = Ok path).
  { apply midpoints_ok. intros i Hi. apply elem_of_seq in Hi. simpl in *. lia. }
  unfold getSvgPathFromStroke.
  replace (length (p0 :: p1 :: p2 :: p3 :: rest) <? 4) with false
    by (symmetry; apply Nat.ltb_ge; simpl; lia).
  cbn [lookup list_lookup index].
  destruct p0 as [|a0 [|a1 p0]]; [split; [intros Hwf; exfalso|reflexivity]..|].
  { apply Forall_cons in Hwf. simpl in Hwf. lia. }
  { apply Forall_cons in Hwf. simpl in Hwf. lia. }
  destruct p1 as [|b0 [|b1 p1]]; [split; [intros Hwf; exfalso|reflexivity]..|].
  { apply Forall_cons in Hwf. destruct Hwf as [_ Hwf].
    apply Forall_cons in Hwf. simpl in Hwf. lia. }
  { apply Forall_cons in Hwf. destruct Hwf as [_ Hwf].
    apply Forall_cons in Hwf. simpl in Hwf. lia. }
  split.
  - intros _. cbn [mbind completion_bind toFixed2 lookup list_lookup].
    match goal with
    | |- ∃ path, midpoints ?ps ?range ?r ≫= _ = _ =>
      destruct (Hloop r) as [path Hpath]
    end.
    rewrite Hpath. simpl. eauto.
  - intros Hnot. exfalso. apply Hnot. simpl.
    constructor; [simpl; lia|]. constructor; [simpl; lia|]. constructor.
Qed.

(** Filling the missing coordinates of the later points with NaN changes
    nothing. *)
Lemma getSvgPathFromStroke_pad `{Externals} (points : list (list float))
    (closed : bool) :
  getSvgPathFromStroke (take 2 points ++ (with_NaN <$> drop 2 points)) closed
  = getSvgPathFromStroke points closed.
Proof.
  destruct points as [|p0 [|p1 [|p2 [|p3 rest]]]]; try reflexivity.
  cbn [take drop fmap list_fmap app]. unfold getSvgPathFromStroke.
  cbn [length]. rewrite length_fmap.
  replace (S (S (S (S (length rest)))) <? 4) with false
    by (symmetry; apply Nat.ltb_ge; lia).
  cbn [lookup list_lookup index].
  destruct p0 as [|a0 [|a1 p0]]; [reflexivity..|].
  destruct p1 as [|b0 [|b1 p1]]; [reflexivity..|].
  cbn [mbind completion_bind toFixed2 lookup list_lookup with_NaN toNumber default].
  rewrite (midpoints_pad
             ((a0 :: a1 :: p0) :: (b0 :: b1 :: p1) :: p2 :: p3 :: rest)); [reflexivity|].
  assert (Hl : ∀ j, (with_NaN p2 :: with_NaN p3 :: (with_NaN <$> rest)) !! j
                    = with_NaN <$> (p2 :: p3 :: rest) !! j).
  { intros j. apply (list_lookup_fmap with_NaN (p2 :: p3 :: rest) j). }
  intros i Hi. apply elem_of_seq in Hi.
  destruct i as [|[|i]]; [lia..|].
  replace (S (S i) + 1) with (S (S (S i))) by lia.
  split; [apply (Hl i)|apply (Hl (S i))].
Qed.

(** X11: from four points on, [getSvgPathFromStroke] throws exactly when
    one of the first two points has fewer than two coordinates (their
    coordinates are formatted directly); a coordinate missing anywhere else
    is averaged as a NaN and the path is returned: the result is that for
    the points with every later point's missing coordinates filled with
    NaN. *)
Theorem getSvgPathFromStroke_throws_iff `{Externals} (points : list (list float))
    (closed : bool) :
  4 ≤ length points →
  (Forall (λ p, 2 ≤ length p) (take 2 points) →
   ∃ path, getSvgPathFromStroke points closed = Ok path)
  ∧ (¬ Forall (λ p, 2 ≤ length p) (take 2 points) →
     getSvgPathFromStroke points closed = Throw "TypeError")
  ∧ getSvgPathFromStroke (take 2 points ++ (with_NaN <$> drop 2 points)) closed
    = getSvgPathFromStroke points closed.
Proof.
  intros Hlen.
  destruct (getSvgPathFromStroke_throws_cases points closed Hlen) as [Hok Hthrow].
  split; [exact Hok|]. split; [exact Hthrow|].
  apply getSvgPathFromStroke_pad.
Qed.

Lemma getSvgPathFromStroke_throws_iff_witness :
  4 ≤ length [[0; 0]; [1; 1]; [2]; []]%float
  ∧ (∃ path, getSvgPathFromStroke (H := Sample.externals)
               [[0; 0]; [1; 1]; [2]; []]%float true = Ok path)
  ∧ getSvgPathFromStroke (H := Sample.externals)
      [[0; 0]; [1]; [2; 2]; [3; 3]]%float true = Throw "TypeError".
Proof.
  assert (Hlen : 4 ≤ length [[0; 0]; [1; 1]; [2]; []]%float) by (simpl; lia).
  split; [exact Hlen|]. split.
  - apply (proj1 (getSvgPathFromStroke_throws_iff (H := Sample.externals)
                    [[0; 0]; [1; 1]; [2]; []]%float true Hlen)).
    simpl. constructor; [simpl; lia|]. constructor; [simpl; lia|]. constructor.
  - reflexivity.
Defined.

Example missing_coordinates_are_NaN :
  getSvgPathFromStroke (H := Sample.externals) [[0; 0]; [1; 1]; [2]; []]%float true
  = Ok "M0.00,0.00 Q1.00,1.00 1.50,NaN TNaN,NaN Z".
Proof. vm_compute. reflexivity. Qed.

(** X12: the closed path is the open path with a final [Z], from four
    points on; below that both are empty; and the two throw alike. *)
Theorem closed_path_is_open_path_with_Z `{Externals} (points : list (list float)) :
  match getSvgPathFromStroke points false with
  | Ok path =>
    getSvgPathFromStroke points true
    = Ok (if length points <? 4 then path else path +:+ "Z")
  | Throw e => getSvgPathFromStroke points true = Throw e
  end
  ∧ (length points < 4 →
     getSvgPathFromStroke points false = Ok EmptyString
     ∧ getSvgPathFromStroke points true = Ok EmptyString).
Proof.
  split.
  - unfold getSvgPathFromStroke.
    destruct (length points <? 4); [reflexivity|].
    repeat match goal with
           | |- context [?x ≫= _] =>
             lazymatch x with
             | _ ≫= _ => fail
             | Ok _ => fail
             | Throw _ => fail
             | _ => destruct x; cbn [mbind completion_bind]
             end
           end;
      reflexivity.
  - intros Hlen. apply Nat.ltb_lt in Hlen. unfold getSvgPathFromStroke.
    rewrite Hlen. split; reflexivity.
Qed.

(** ** Further properties of rendering *)

(** X13: what the board holds never depends on the rendering libraries:
    with any two implementations of [toFixed] and [getStroke] a run of
    events ends in the same fields, also when drawing throws on the way. *)
Theorem board_independent_of_rendering (E1 E2 : Externals) (es : list Event)
    (s : Whiteboard) :
  run (H := E1) es s = run (H := E2) es s.
Proof.
  revert s. induction es as [|e es IH]; intros s; [reflexivity|].
  simpl. rewrite IH. f_equal. unfold step.
  destruct e as [found menu|w h| |x y|x y| | |tool]; cbn [handle].
  - unfold firstUpdated. destruct found as [c|]; [|reflexivity].
    destruct menu; [|reflexivity].
    unfold handleResize. cbn [canvas set_canvas]. rewrite !state_draw. reflexivity.
  - unfold handleResize. destruct (canvas (relayout w h s)); [|reflexivity].
    rewrite !state_draw. reflexivity.
  - unfold handleVisibilityChange. destruct (canvas s); [|reflexivity].
    rewrite !state_draw. reflexivity.
  - reflexivity.
  - unfold handleDrawingMove. destruct (currentDrawing s) as [r|]; [|reflexivity].
    destruct (deref s r) as [item|]; [|reflexivity].
    rewrite !state_draw. reflexivity.
  - unfold handleDrawingEnd. destruct (currentDrawing s) as [r|]; [|reflexivity].
    destruct (deref s r) as [item|]; [|reflexivity].
    rewrite !state_draw. reflexivity.
  - unfold handleTouchCancel. destruct (currentDrawing s); [|reflexivity].
    rewrite !state_draw. reflexivity.
  - reflexivity.
Qed.

Section Rendering.
Context `{Externals}.

Lemma draw_no_canvas (s : Whiteboard) : canvas s = None → draw s = quiet s.
Proof. intros Hc. unfold draw. rewrite Hc. reflexivity. Qed.

(** An exception of [drawItems] comes from one of the objects drawn. *)
Lemma drawItems_thrown (s : Whiteboard) (l : list ref) (e : string) :
  Forall (λ r, r < length (heap s)) l →
  (drawItems s l).2 = Some e →
  ∃ r item, r ∈ l ∧ deref s r = Some item ∧ drawItem s item = Throw e.
Proof.
  induction l as [|r l IH]; intros Hl Hthrown; cbn [drawItems] in Hthrown;
    [discriminate|].
  apply Forall_cons in Hl. destruct Hl as [Hr Hl].
  apply lookup_lt_is_Some in Hr. destruct Hr as [item Hitem].
  change (deref s r = Some item) in Hitem. rewrite Hitem in Hthrown.
  destruct (drawItem s item) as [ops|e'] eqn:Hdraw.
  - destruct (drawItems s l) as [ops' e'] eqn:Hrest. simpl in Hthrown, IH.
    destruct (IH Hl Hthrown) as (r' & item' & Hin & Hitem' & Hthrow).
    exists r', item'. split; [right; exact Hin|]. split; assumption.
  - simpl in Hthrown. injection Hthrown as ->.
    exists r, item. split; [left|]. split; assumption.
Qed.

End Rendering.

(** X14: in a session [draw] throws only where a pen outline makes
    [getSvgPathFromStroke] throw: an exception of [draw] is the one of a
    pen stroke among the committed items and the draft.  A board without
    pen strokes is redrawn without exception. *)
Theorem draw_throws_only_on_pen_outline `{Externals} (s : Whiteboard) (e : string) :
  reachable s → thrown (draw s) = Some e →
  ∃ r path options,
    r ∈ items s ++ option_list (currentDrawing s)
    ∧ deref s r = Some (WhiteboardPen path options)
    ∧ getSvgPathFromStroke
        (getStroke ((λ p, mkPoint (px p + px (canvasCoords s))
                                  (py p + py (canvasCoords s))) <$> path)
                   6 0.5 0.5 0.5) true
      = Throw e.
Proof.
  intros Hs Hthrown. apply reachable_wf in Hs.
  unfold draw in Hthrown. destruct (canvas s) as [c|]; [|discriminate].
  destruct (drawItems s _) as [ops e'] eqn:Hdraw. simpl in Hthrown. subst e'.
  destruct (drawItems_thrown s (items s ++ option_list (currentDrawing s)) e)
    as (r & item & Hin & Hitem & Hthrow).
  - apply Forall_app. split; [apply (wf_items s Hs)|].
    destruct (currentDrawing s) as [r|] eqn:Hr; [|constructor].
    constructor; [|constructor]. apply (wf_draft s Hs r Hr).
  - rewrite Hdraw. reflexivity.
  - destruct item as [| | |path options|]; try discriminate.
    exists r, path, options. split; [exact Hin|]. split; [exact Hitem|].
    unfold drawItem in Hthrow.
    destruct (getSvgPathFromStroke _ true) as [pathData|e'] eqn:Hpath;
      [discriminate|].
    simpl in Hthrow. injection Hthrow as ->. reflexivity.
Qed.

Lemma draw_throws_only_on_pen_outline_witness :
  reachable (H := malformed_outline) pen_on_malformed_outline
  ∧ thrown (draw (H := malformed_outline) pen_on_malformed_outline) = Some "TypeError"
  ∧ ∃ r path options,
      r ∈ items pen_on_malformed_outline
          ++ option_list (currentDrawing pen_on_malformed_outline)
      ∧ deref pen_on_malformed_outline r = Some (WhiteboardPen path options)
      ∧ getSvgPathFromStroke (H := malformed_outline)
          (getStroke (Externals := malformed_outline)
             ((λ p, mkPoint (px p + px (canvasCoords pen_on_malformed_outline))
                            (py p + py (canvasCoords pen_on_malformed_outline)))
                <$> path)
             6 0.5 0.5 0.5) true
        = Throw "TypeError".
Proof.
  split; [eexists; reflexivity|]. split; [reflexivity|].
  apply (draw_throws_only_on_pen_outline (H := malformed_outline)
           pen_on_malformed_outline "TypeError" (ex_intro _ _ eq_refl) eq_refl).
Defined.

(** X15: before the page has found the canvas nothing is painted and
    nothing is thrown: in a session without a canvas every event but
    [firstUpdated] only changes the fields. *)
Theorem no_canvas_no_painting `{Externals} (e : Event) (s : Whiteboard) :
  reachable s → canvas s = None → is_first_update e = false →
  painted (handle e s) = [] ∧ thrown (handle e s) = None
  ∧ canvas (state (handle e s)) = None.
Proof.
  intros Hs Hcanvas He. apply reachable_wf in Hs.
  destruct e as [found menu|w h| |x y|x y| | |tool]; try discriminate; cbn [handle].
  - unfold handleResize, relayout. rewrite Hcanvas. cbn. rewrite Hcanvas. auto.
  - unfold handleVisibilityChange. rewrite Hcanvas. auto.
  - unfold handleDrawingStart. cbn. repeat case_match; auto.
  - unfold handleDrawingMove. destruct (currentDrawing s) as [r|] eqn:Hr; [|auto].
    destruct (draft_valid s r Hs Hr) as [item Hitem]. rewrite Hitem.
    rewrite draw_no_canvas; [destruct item; auto|destruct item; exact Hcanvas].
  - unfold handleDrawingEnd. destruct (currentDrawing s) as [r|] eqn:Hr; [|auto].
    destruct (draft_valid s r Hs Hr) as [item Hitem]. rewrite Hitem.
    rewrite draw_no_canvas; [destruct (negb _); auto|destruct (negb _); exact Hcanvas].
  - unfold handleTouchCancel. destruct (currentDrawing s); [|auto].
    rewrite draw_no_canvas; [auto|exact Hcanvas].
  - auto.
Qed.

Lemma no_canvas_no_painting_witness :
  reachable (H := Sample.externals) (pen_in_progress false)
  ∧ canvas (pen_in_progress false) = None
  ∧ handle (H := Sample.externals) (DrawingMove 5 5) (pen_in_progress false)
    = mkOutcome
        (state (handle (H := Sample.externals) (DrawingMove 5 5)
                  (pen_in_progress false))) [] None.
Proof.
  split; [eexists; reflexivity|]. split; [reflexivity|].
  destruct (no_canvas_no_painting (H := Sample.externals) (DrawingMove 5 5)
              (pen_in_progress false) (ex_intro _ _ eq_refl) eq_refl eq_refl)
    as (Hp & Ht & _).
  destruct (handle (DrawingMove 5 5) (pen_in_progress false)) as [st p t].
  simpl in *. subst. reflexivity.
Defined.

(** X16: a window resize with a canvas gives the drawing buffer the size
    the canvas is laid out at, clears the whole new buffer before anything
    else is painted, and leaves every other field alone. *)
Theorem resize_fits_buffer `{Externals} (w h : float) (s : Whiteboard) (c : Canvas) :
  canvas s = Some c →
  let o := handle (Resize w h) s in
  canvas (state o) = Some (mkCanvas w h w h)
  ∧ (∃ ops, painted o = ClearRect 0 0 w h :: ops)
  ∧ set_canvas (Some c) (state o) = s.
Proof.
  intros Hc o. subst o. destruct s as [hp cv its pan d tl]. simpl in Hc. subst cv.
  cbn [handle]. unfold handleResize, relayout. cbn [canvas set_canvas].
  rewrite state_draw. split; [reflexivity|]. split; [|reflexivity].
  unfold draw. cbn [canvas set_canvas width height].
  destruct (drawItems _ _) as [ops e]. exists ops. reflexivity.
Qed.

Lemma resize_fits_buffer_witness :
  canvas rect_in_progress = Some (mkCanvas 640 480 640 480)
  ∧ canvas (state (handle (H := Sample.externals) (Resize 800 600) rect_in_progress))
    = Some (mkCanvas 800 600 800 600)
  ∧ painted (handle (H := Sample.externals) (Resize 800 600) rect_in_progress)
    = [ClearRect 0 0 800 600;
       Line 4 6 8 11 Rough.noOptions;
       Rectangle 10 20 30 40 Rough.noOptions].
Proof.
  split; [reflexivity|]. split.
  - exact (proj1 (resize_fits_buffer (H := Sample.externals) 800 600
                    rect_in_progress (mkCanvas 640 480 640 480) eq_refl)).
  - vm_compute. reflexivity.
Defined.

(** ** Further properties of the rect tool *)

(** X17: [setCoordsItem] and [getCoordsItem] round-trip: the coordinates
    read back are the ones set, setting the ones read changes nothing, a
    second set overrides the first, and kind, id, size and options are
    kept. *)
Theorem coords_round_trip (item : ToolRect.RectItem) (x y x' y' : float) :
  ToolRect.getCoordsItem (ToolRect.setCoordsItem item x y) = mkPoint x y
  ∧ ToolRect.setCoordsItem item (px (ToolRect.getCoordsItem item))
      (py (ToolRect.getCoordsItem item)) = item
  ∧ ToolRect.setCoordsItem (ToolRect.setCoordsItem item x y) x' y'
    = ToolRect.setCoordsItem item x' y'
  ∧ ToolRect.setCoordsItem item x y
    = ToolRect.mkRectItem (ToolRect.kind item) (ToolRect.id item) x y
        (ToolRect.width item) (ToolRect.height item) (ToolRect.options item).
Proof. destruct item. repeat split. Qed.

(** X18: moving a rect item moves its bounding box and does not resize it:
    the box is never [null], its width and height are those of the box
    before, and its corner is the new position lowered by the same
    padding. *)
Theorem moved_item_bounding_rect (item : ToolRect.RectItem) (x y : float) :
  ∃ b b' padding,
    ToolRect.getBoundingRect item = Some b
    ∧ ToolRect.getBoundingRect (ToolRect.setCoordsItem item x y) = Some b'
    ∧ ToolRect.bounding_width b' = ToolRect.bounding_width b
    ∧ ToolRect.bounding_height b' = ToolRect.bounding_height b
    ∧ ToolRect.bounding_x b = (ToolRect.x item - padding)%float
    ∧ ToolRect.bounding_y b = (ToolRect.y item - padding)%float
    ∧ ToolRect.bounding_x b' = (x - padding)%float
    ∧ ToolRect.bounding_y b' = (y - padding)%float.
Proof.
  unfold ToolRect.getBoundingRect. destruct item. simpl.
  eexists _, _, _. repeat split.
Qed.

(** X19: the rect tool's [handleDrawingMove] leaves the whiteboard alone
    when there is no draft or the draft is of another kind, and its
    [handleDrawingEnd] when there is no draft: no [setCurrentDrawing], no
    [addItem]. *)
Theorem rect_tool_ignores_foreign_drafts {W : Type} `{ToolRect.SimpleWhiteboard W}
    (simpleWhiteboard : W) (x y : float) :
  (ToolRect.getCurrentDrawing simpleWhiteboard = None →
   ToolRect.handleDrawingMove x y (Some simpleWhiteboard) = Some simpleWhiteboard
   ∧ ToolRect.handleDrawingEnd (Some simpleWhiteboard) = Some simpleWhiteboard)
  ∧ (∀ currentDrawing,
       ToolRect.getCurrentDrawing simpleWhiteboard = Some currentDrawing →
       ToolRect.kind currentDrawing ≠ ToolRect.getToolName →
       ToolRect.handleDrawingMove x y (Some simpleWhiteboard) = Some simpleWhiteboard).
Proof.
  unfold ToolRect.handleDrawingMove, ToolRect.handleDrawingEnd. split.
  - intros ->. split; reflexivity.
  - intros d -> Hk. apply String.eqb_neq in Hk. rewrite Hk. reflexivity.
Qed.

Lemma rect_tool_move_geometry_witness :
  ToolRect.getCurrentDrawing (SimpleWhiteboard := Sample.host) (host_with "rect")
  = Sample.hostDrawing (host_with "rect")
  ∧ Sample.hostDrawing
      <$> ToolRect.handleDrawingMove (H := Sample.host) 40 60 (Some (host_with "rect"))
    = Some (Some (ToolRect.mkRectItem "rect" "item-2" 7 16 30 40
                    (Rough.mkOptions (Some "#000000") (Some 2%float)
                                     (Some "transparent")))).
Proof.
  split; [reflexivity|].
  rewrite (rect_tool_move_geometry (H := Sample.host) (host_with "rect") _ 40 60
             eq_refl eq_refl).
  reflexivity.
Defined.

Section LawfulWhiteboard.
Context {W : Type} `{ToolRect.SimpleWhiteboard W}.
Hypothesis get_set : ∀ d (w : W),
  ToolRect.getCurrentDrawing (ToolRect.setCurrentDrawing d w) = d.
Hypothesis coords_set : ∀ d (w : W),
  ToolRect.getCanvasCoords (ToolRect.setCurrentDrawing d w) = ToolRect.getCanvasCoords w.

(** Moves on a rect draft keep its id, anchor and options and the pan
    offset; the last one decides the size. *)
Lemma rect_tool_moves (moves : list (float * float)) :
  ∀ (w : W) (itemId : string) (ax ay width height mx my : float)
    (o : RoughCanvasOptions),
  ToolRect.getCurrentDrawing w
  = Some (ToolRect.mkRectItem "rect" itemId ax ay width height o) →
  ∃ w',
    foldl (λ instance p, ToolRect.handleDrawingMove p.1 p.2 instance) (Some w)
      (moves ++ [(mx, my)]) = Some w'
    ∧ ToolRect.getCanvasCoords w' = ToolRect.getCanvasCoords w
    ∧ ToolRect.getCurrentDrawing w'
      = Some (ToolRect.mkRectItem "rect" itemId ax ay
                (mx - ax - px (ToolRect.getCanvasCoords w))
                (my - ay - py (ToolRect.getCanvasCoords w)) o)
    ∧ ∃ drafts, w' = foldr ToolRect.setCurrentDrawing w drafts.
Proof.
  assert (Hmove : ∀ (w : W) itemId ax ay width height x y o,
            ToolRect.getCurrentDrawing w
            = Some (ToolRect.mkRectItem "rect" itemId ax ay width height o) →
            ToolRect.handleDrawingMove x y (Some w)
            = Some (ToolRect.setCurrentDrawing
                      (Some (ToolRect.mkRectItem "rect" itemId ax ay
                               (x - ax - px (ToolRect.getCanvasCoords w))
                               (y - ay - py (ToolRect.getCanvasCoords w)) o)) w)).
  { intros w itemId ax ay width height x y o Hd.
    unfold ToolRect.handleDrawingMove. rewrite Hd. reflexivity. }
  induction moves as [|[x y] moves IH]; intros w itemId ax ay width height mx my o Hd;
    cbn [app foldl fst snd].
  - rewrite (Hmove w _ _ _ _ _ mx my _ Hd).
    eexists. split; [reflexivity|]. split; [apply coords_set|].
    split; [apply get_set|]. eexists [_]. reflexivity.
  - rewrite (Hmove w _ _ _ _ _ x y _ Hd).
    edestruct (IH (ToolRect.setCurrentDrawing
                     (Some (ToolRect.mkRectItem "rect" itemId ax ay
                              (x - ax - px (ToolRect.getCanvasCoords w))
                              (y - ay - py (ToolRect.getCanvasCoords w)) o)) w))
      as (w' & Hrun & Hcoords & Hdraft & drafts & Hdrafts); [apply get_set|].
    exists w'. split; [exact Hrun|].
    rewrite coords_set in Hcoords, Hdraft. split; [assumption|].
    split; [assumption|].
    eexists (drafts ++ [_]). rewrite foldr_app. exact Hdrafts.
Qed.

End LawfulWhiteboard.

(** X20: a whole gesture of the rect tool on a whiteboard that hands back
    the draft it was given (and whose pan offset does not depend on the
    draft): start, any moves, a last move at [(mx, my)], release.  Up to
    the release the whiteboard has only been given drafts
    ([setCurrentDrawing]); the release calls [addItem] once, with a rect of
    the tool's own styling anchored where [coordsFromCanvasCoords] puts the
    start, of width [mx - x - canvasX] and height [my - y - canvasY], and
    then clears the draft. *)
Theorem rect_tool_gesture_commits {W : Type} `{ToolRect.SimpleWhiteboard W}
    (tool : ToolRect.SimpleWhiteboardToolRect) (itemId : string)
    (sx sy mx my : float) (moves : list (float * float)) (w : W) :
  (∀ d (w : W), ToolRect.getCurrentDrawing (ToolRect.setCurrentDrawing d w) = d) →
  (∀ d (w : W), ToolRect.getCanvasCoords (ToolRect.setCurrentDrawing d w)
                = ToolRect.getCanvasCoords w) →
  let anchor := ToolRect.coordsFromCanvasCoords w sx sy in
  let canvas := ToolRect.getCanvasCoords w in
  let item :=
    ToolRect.mkRectItem "rect" itemId (px anchor) (py anchor)
      (mx - px anchor - px canvas) (my - py anchor - py canvas)
      (Rough.mkOptions (Some (ToolRect.stroke tool)) (Some (ToolRect.strokeWidth tool))
                       (Some (ToolRect.fill tool))) in
  ∃ w',
    foldl (λ instance p, ToolRect.handleDrawingMove p.1 p.2 instance)
      (ToolRect.handleDrawingStart tool itemId sx sy (Some w))
      (moves ++ [(mx, my)]) = Some w'
    ∧ ToolRect.getCurrentDrawing w' = Some item
    ∧ ToolRect.handleDrawingEnd (Some w')
      = Some (ToolRect.setCurrentDrawing None (ToolRect.addItem item true w'))
    ∧ ∃ drafts, w' = foldr ToolRect.setCurrentDrawing w drafts.
Proof.
  intros Hget Hcoords anchor canvas item.
  unfold ToolRect.handleDrawingStart.
  edestruct (rect_tool_moves Hget Hcoords moves)
    as (w' & Hrun & Hc & Hd & drafts & Hdrafts); [apply Hget|].
  exists w'. split; [exact Hrun|].
  rewrite Hcoords in Hd. split; [exact Hd|]. split.
  - unfold ToolRect.handleDrawingEnd. rewrite Hd. reflexivity.
  - eexists (drafts ++ [_]). rewrite foldr_app. exact Hdrafts.
Qed.

Lemma rect_tool_gesture_commits_witness :
  (∀ d (w : Sample.Host),
     ToolRect.getCurrentDrawing (SimpleWhiteboard := Sample.host)
       (ToolRect.setCurrentDrawing (SimpleWhiteboard := Sample.host) d w) = d)
  ∧ (∀ d (w : Sample.Host),
       ToolRect.getCanvasCoords (SimpleWhiteboard := Sample.host)
         (ToolRect.setCurrentDrawing (SimpleWhiteboard := Sample.host) d w)
       = ToolRect.getCanvasCoords (SimpleWhiteboard := Sample.host) w)
  ∧ ∃ w',
      foldl (λ instance p, ToolRect.handleDrawingMove (H := Sample.host) p.1 p.2 instance)
        (ToolRect.handleDrawingStart (H := Sample.host) ToolRect.newTool "item-2" 10 20
           (Some (Sample.mkHost [] None (mkPoint 3 4) None)))
        ([(11, 21)] ++ [(40, 60)])%float = Some w'
      ∧ Sample.hostItems
          <$> ToolRect.handleDrawingEnd (H := Sample.host) (Some w')
        = Some [ToolRect.mkRectItem "rect" "item-2" 7 16 30 40
                  (Rough.mkOptions (Some "#000000") (Some 2%float)
                                   (Some "transparent"))].
Proof.
  assert (Hget : ∀ d (w : Sample.Host),
            ToolRect.getCurrentDrawing (SimpleWhiteboard := Sample.host)
              (ToolRect.setCurrentDrawing (SimpleWhiteboard := Sample.host) d w) = d)
    by reflexivity.
  assert (Hcoords : ∀ d (w : Sample.Host),
            ToolRect.getCanvasCoords (SimpleWhiteboard := Sample.host)
              (ToolRect.setCurrentDrawing (SimpleWhiteboard := Sample.host) d w)
            = ToolRect.getCanvasCoords (SimpleWhiteboard := Sample.host) w)
    by reflexivity.
  split; [exact Hget|]. split; [exact Hcoords|].
  destruct (rect_tool_gesture_commits (H := Sample.host) ToolRect.newTool "item-2"
              10 20 40 60 [(11, 21)]%float (Sample.mkHost [] None (mkPoint 3 4) None)
              Hget Hcoords) as (w' & Hrun & _ & Hend & _).
  exists w'. split; [exact Hrun|]. rewrite Hend.
  vm_compute in Hrun. injection Hrun as <-. reflexivity.
Defined.


Example unchecked_fill_forgets_colour :
  ToolRect.fill
    (ToolRectOptions.fillChange true
       (ToolRectOptions.fillChange false
          (ToolRectOptions.fillInput "#ff0000" ToolRect.newTool)))
  = "#000000".
Proof. reflexivity. Qed.
